(** * AI-search: tool-call rendering and editing logic

    A shallow embedding of the interactive core of the chat client:

    - [Js]               the JavaScript values and string operations the
                         components rely on;
    - [Tools]            the tool registry (lib/tools.ts);
    - [Page]             the conversation mapper of app/page.tsx
                         ([getToolInvocations], [getToolStatus]);
    - [ParameterDisplay] the parameter editor (components/ParameterDisplay.tsx);
    - [ToolCallCard]     the per-invocation card (components/ToolCallCard.tsx),
                         as a state machine over user and upstream events.

    Modelling conventions.  A JavaScript string is a [string]: one [ascii]
    per code unit, so the model covers strings whose code units are below
    256.  A number is an integer [Z] (the registry's numeric parameters are
    counts) or [NaN]; negative zero, fractions and integers that a double
    does not hold exactly are outside the model.  An argument value is a
    scalar or an array; an ArgumentSet is an association list in insertion
    order, as [Object.entries] shows it, and reading a property looks at
    the object's own properties only (the keys are parameter names).
    Code that can raise a [TypeError] returns a [result].  The debugging
    output of the mapper ([console.log]) is left out. *)

From Stdlib Require Import ZArith List String Ascii Bool Lia DecimalString.
From Stdlib Require Import Permutation.
Import ListNotations.
Open Scope string_scope.
Set Warnings "-register-all".

(* ------------------------------------------------------------------ *)
(** * JavaScript values *)

Module Js.

Inductive value : Type :=
| Undefined
| Null
| Bool (b : bool)
| Num (n : Z)
| NaN
| Str (s : string)
| Arr (vs : list value).

(** A plain object whose properties hold scalars and arrays, in insertion
    order. *)
Definition obj : Type := list (string * value).

(** What a property of a streamed message part can hold: a scalar or array,
    or a plain object (the tool input). *)
Inductive any : Type :=
| Val (v : value)
| Object (o : obj).

Inductive error : Type :=
| TypeError (msg : string).

Inductive result (A : Type) : Type :=
| Ok (a : A)
| Throw (e : error).
Arguments Ok {A} a.
Arguments Throw {A} e.

Definition bind {A B : Type} (m : result A) (k : A -> result B) : result B :=
  match m with
  | Ok a => k a
  | Throw e => Throw e
  end.

Notation "x <- m ;; k" := (bind m (fun x => k))
  (at level 61, m at next level, right associativity).

Section Monadic.
Context {A B : Type}.

(** [Array.prototype.filter] with a callback that may throw. *)
Fixpoint filterM (f : A -> result bool) (l : list A) : result (list A) :=
  match l with
  | [] => Ok []
  | x :: xs =>
      keep <- f x ;;
      rest <- filterM f xs ;;
      Ok (if keep then x :: rest else rest)
  end.

(** [Array.prototype.map] with a callback that may throw. *)
Fixpoint mapM (f : A -> result B) (l : list A) : result (list B) :=
  match l with
  | [] => Ok []
  | x :: xs =>
      y <- f x ;;
      ys <- mapM f xs ;;
      Ok (y :: ys)
  end.

End Monadic.

(** ** Truthiness and strict equality against literals *)

Definition truthy (v : value) : bool :=
  match v with
  | Undefined | Null | NaN => false
  | Bool b => b
  | Num n => negb (n =? 0)%Z
  | Str s => negb (s =? "")
  | Arr _ => true
  end.

Definition truthy_any (a : any) : bool :=
  match a with
  | Val v => truthy v
  | Object _ => true
  end.

(** [v === "lit"] *)
Definition is_str (v : value) (lit : string) : bool :=
  match v with
  | Str s => s =? lit
  | _ => false
  end.

(** [v === n] for a numeric literal [n] *)
Definition is_num (v : value) (lit : Z) : bool :=
  match v with
  | Num n => (n =? lit)%Z
  | _ => false
  end.

Definition is_undefined (v : value) : bool :=
  match v with Undefined => true | _ => false end.

Definition is_null (v : value) : bool :=
  match v with Null => true | _ => false end.

Definition isArray (v : value) : bool :=
  match v with Arr _ => true | _ => false end.

(** [a || b] *)
Definition or_else (a b : value) : value := if truthy a then a else b.

(** ** Objects *)

(** [o[k]]: the property, or [undefined] when there is none. *)
Fixpoint get (o : obj) (k : string) : value :=
  match o with
  | [] => Undefined
  | (k', v) :: o' => if k' =? k then v else get o' k
  end.

(** [{ ...o, [k]: v }]: an existing property keeps its place, a new one goes
    last.  The property is written even when [v] is [undefined]. *)
Fixpoint set (o : obj) (k : string) (v : value) : obj :=
  match o with
  | [] => [(k, v)]
  | (k', v') :: o' =>
      if k' =? k then (k, v) :: o' else (k', v') :: set o' k v
  end.

(** [Object.keys(o)] *)
Definition keys (o : obj) : list string := map fst o.

(** ** Strings *)

Definition nl : string := String (ascii_of_nat 10) "".

(** [s.startsWith(p)] *)
Definition startsWith (s p : string) : bool := prefix p s.

Fixpoint drop (n : nat) (s : string) : string :=
  match n, s with
  | O, _ => s
  | S _, "" => ""
  | S n', String _ s' => drop n' s'
  end.

(** [s.slice(0, n)] *)
Definition slice0 (s : string) (n : nat) : string := substring 0 n s.

(** [s.replace(pat, rep)] with a string pattern: the first occurrence only.
    [rep] is taken literally (the call sites pass no [$] patterns). *)
Fixpoint replace (s pat rep : string) : string :=
  if prefix pat s then rep ++ drop (String.length pat) s
  else match s with
       | "" => ""
       | String c s' => String c (replace s' pat rep)
       end.

(** [s.split(c)] for a one-character separator. *)
Fixpoint split (s : string) (c : ascii) : list string :=
  match s with
  | "" => [""]
  | String a s' =>
      if Ascii.eqb a c then "" :: split s' c
      else match split s' c with
           | [] => [String a ""]
           | seg :: segs => String a seg :: segs
           end
  end.

(** White space and line terminators among the code units below 256. *)
Definition is_space (c : ascii) : bool :=
  let n := nat_of_ascii c in
  (Nat.eqb n 9 || Nat.eqb n 10 || Nat.eqb n 11 || Nat.eqb n 12
   || Nat.eqb n 13 || Nat.eqb n 32 || Nat.eqb n 160)%bool.

Fixpoint trimStart (s : string) : string :=
  match s with
  | "" => ""
  | String c s' => if is_space c then trimStart s' else s
  end.

Fixpoint trimEnd (s : string) : string :=
  match s with
  | "" => ""
  | String c s' =>
      match trimEnd s' with
      | "" => if is_space c then "" else String c ""
      | t => String c t
      end
  end.

(** [s.trim()] *)
Definition trim (s : string) : string := trimEnd (trimStart s).

(** [s[0]] and [s[s.length - 1]] *)
Definition first_char (s : string) : option ascii :=
  match s with
  | "" => None
  | String c _ => Some c
  end.

Fixpoint last_char (s : string) : option ascii :=
  match s with
  | "" => None
  | String c "" => Some c
  | String _ s' => last_char s'
  end.

(** [xs.join(sep)] on an array of strings. *)
Definition join (sep : string) (xs : list string) : string := concat sep xs.

(** [s.includes(p)] *)
Fixpoint includes (s p : string) : bool :=
  (prefix p s ||
   match s with
   | "" => false
   | String _ s' => includes s' p
   end)%bool.

(** [c.repeat(n)] for one character. *)
Fixpoint repeat (c : ascii) (n : nat) : string :=
  match n with
  | O => ""
  | S n' => String c (repeat c n')
  end.

(** [s.includes(c)] for one character. *)
Fixpoint has_char (c : ascii) (s : string) : bool :=
  match s with
  | "" => false
  | String a s' => (Ascii.eqb a c || has_char c s')%bool
  end.

(** ** Conversion to string *)

(** The decimal numeral of an integer (the form [String(n)] has for integers
    of magnitude below 10^21). *)
Definition numberToString (n : Z) : string :=
  NilZero.string_of_int (Z.to_int n).

(** [String(v)], also what a template literal inserts. *)
Fixpoint toString (v : value) : string :=
  match v with
  | Undefined => "undefined"
  | Null => "null"
  | Bool true => "true"
  | Bool false => "false"
  | Num n => numberToString n
  | NaN => "NaN"
  | Str s => s
  | Arr vs =>
      join "," (map (fun x => match x with
                              | Undefined | Null => ""
                              | _ => toString x
                              end) vs)
  end.

(** [vs.join(sep)] on an array of values: [null] and [undefined] elements
    give the empty string. *)
Definition joinValues (sep : string) (vs : list value) : string :=
  join sep (map (fun x => match x with
                          | Undefined | Null => ""
                          | _ => toString x
                          end) vs).

End Js.

(* ------------------------------------------------------------------ *)
(** * The tool registry (lib/tools.ts) *)

Module Tools.
Import Js.

Inductive ParamType : Type :=
| text | number | select | array | boolean | date.

Inductive Section_ : Type :=
| search | filters | contents.

Record ParameterConfig : Type := {
  key : string;
  label : string;
  type : ParamType;
  section : Section_;
  required : bool;
  default : value;            (* [Undefined] when the descriptor has none *)
  options : option (list string);
  description : string
}.

Inductive Category : Type :=
| cat_search | cat_research | cat_extract | cat_similar.

Record ToolMetadataEntry : Type := {
  displayName : string;
  endpoint : string;
  tool_description : string;
  icon : string;
  category : Category;
  availableParams : list ParameterConfig
}.

Definition CATEGORY_OPTIONS : list string :=
  ["company"; "research paper"; "news"; "pdf"; "github"; "tweet";
   "personal site"; "financial report"; "people"].

Definition SEARCH_TYPE_OPTIONS : list string := ["auto"; "neural"; "fast"].

Definition param (k l : string) (t : ParamType) (s : Section_) (req : bool)
    (d : value) (o : option (list string)) (descr : string) : ParameterConfig :=
  {| key := k; label := l; type := t; section := s; required := req;
     default := d; options := o; description := descr |}.

Definition exa_search : ToolMetadataEntry :=
  {| displayName := "Web Search";
     endpoint := "/search";
     tool_description := "Search the web for real-time information using Exa API";
     icon := "Search";
     category := cat_search;
     availableParams :=
       [ param "query" "Search Query" text search true Undefined None
           "The search query";
         param "type" "Search Type" select search false (Str "auto")
           (Some SEARCH_TYPE_OPTIONS)
           "auto (default), neural (semantic), or fast (keyword)";
         param "category" "Category" select search false Undefined
           (Some CATEGORY_OPTIONS) "Filter results by content type";
         param "numResults" "Number of Results" number search false (Num 5)
           None "Number of results to return (1-100)";
         param "includeDomains" "Include Domains" array filters false
           Undefined None "Only search these domains";
         param "excludeDomains" "Exclude Domains" array filters false
           Undefined None "Exclude these domains from results";
         param "startPublishedDate" "Published After" date filters false
           Undefined None "Filter by publish date (YYYY-MM-DD)";
         param "endPublishedDate" "Published Before" date filters false
           Undefined None "Filter by publish date (YYYY-MM-DD)";
         param "includeText" "Must Include Text" array filters false
           Undefined None "Results must contain this phrase (max 5 words)";
         param "excludeText" "Exclude Text" array filters false
           Undefined None "Exclude results containing this phrase" ] |}.

Definition exa_contents : ToolMetadataEntry :=
  {| displayName := "Get Contents";
     endpoint := "/contents";
     tool_description := "Extract content from specific URLs";
     icon := "Globe";
     category := cat_extract;
     availableParams :=
       [ param "urls" "URLs" array search true Undefined None
           "URLs to extract content from";
         param "text" "Include Text" boolean contents false (Bool true) None
           "Return full page text";
         param "highlights" "Highlights" boolean contents false Undefined None
           "Extract relevant highlights";
         param "summary" "Summary" boolean contents false Undefined None
           "Generate AI summary" ] |}.

Definition exa_find_similar : ToolMetadataEntry :=
  {| displayName := "Find Similar";
     endpoint := "/findSimilar";
     tool_description := "Find pages similar to a given URL";
     icon := "Copy";
     category := cat_similar;
     availableParams :=
       [ param "url" "Source URL" text search true Undefined None
           "URL to find similar pages for";
         param "numResults" "Number of Results" number search false (Num 5)
           None "Number of similar pages to return";
         param "includeDomains" "Include Domains" array filters false
           Undefined None "Only search these domains";
         param "excludeDomains" "Exclude Domains" array filters false
           Undefined None "Exclude these domains";
         param "category" "Category" select search false Undefined
           (Some CATEGORY_OPTIONS) "Filter by content type" ] |}.

(** [toolMetadata[toolName]], among the entries of the table itself. *)
Definition toolMetadata (toolName : string) : option ToolMetadataEntry :=
  if toolName =? "exa_search" then Some exa_search
  else if toolName =? "exa_contents" then Some exa_contents
  else if toolName =? "exa_find_similar" then Some exa_find_similar
  else None.

Definition getToolParameters (toolName : string) : list ParameterConfig :=
  match toolMetadata toolName with
  | Some m => availableParams m
  | None => []
  end.

(** ** The requests the tools send *)

(** [v?.length] as a condition: the length of an array or a string, when it
    is not zero. *)
Definition has_length (v : value) : bool :=
  match v with
  | Arr vs => negb (List.length vs =? 0)%nat
  | Str s => negb (String.length s =? 0)%nat
  | _ => false
  end.

(** [if (cond) o[k] = v] *)
Definition assign_if (cond : bool) (o : obj) (k : string) (v : value) : obj :=
  if cond then set o k v else o.

(** The options [exaSearchTool.execute] hands to the search endpoint. *)
Definition exaSearchOptions (params : obj) : obj :=
  let searchOptions :=
    [ ("type", or_else (get params "type") (Str "auto"));
      ("numResults", or_else (get params "numResults") (Num 5));
      ("text", Bool true) ] in
  let searchOptions :=
    assign_if (truthy (get params "category")) searchOptions
      "category" (get params "category") in
  let searchOptions :=
    assign_if (has_length (get params "includeDomains")) searchOptions
      "includeDomains" (get params "includeDomains") in
  let searchOptions :=
    assign_if (has_length (get params "excludeDomains")) searchOptions
      "excludeDomains" (get params "excludeDomains") in
  let searchOptions :=
    assign_if (truthy (get params "startPublishedDate")) searchOptions
      "startPublishedDate" (get params "startPublishedDate") in
  let searchOptions :=
    assign_if (truthy (get params "endPublishedDate")) searchOptions
      "endPublishedDate" (get params "endPublishedDate") in
  let searchOptions :=
    assign_if (has_length (get params "includeText")) searchOptions
      "includeText" (get params "includeText") in
  assign_if (has_length (get params "excludeText")) searchOptions
    "excludeText" (get params "excludeText").

(** The options [exaFindSimilarTool.execute] hands to the endpoint. *)
Definition exaFindSimilarOptions (params : obj) : obj :=
  let searchOptions :=
    [ ("numResults", or_else (get params "numResults") (Num 5));
      ("text", Bool true) ] in
  let searchOptions :=
    assign_if (has_length (get params "includeDomains")) searchOptions
      "includeDomains" (get params "includeDomains") in
  let searchOptions :=
    assign_if (has_length (get params "excludeDomains")) searchOptions
      "excludeDomains" (get params "excludeDomains") in
  assign_if (truthy (get params "category")) searchOptions
    "category" (get params "category").

(** The options [exaContentsTool.execute] hands to the endpoint; [text]
    defaults to [true] when the argument is [undefined]. *)
Definition exaContentsOptions (params : obj) : obj :=
  let text := if is_undefined (get params "text") then Bool true
              else get params "text" in
  let contentOptions := [] in
  let contentOptions :=
    assign_if (negb (match text with Bool false => true | _ => false end))
      contentOptions "text" (Bool true) in
  let contentOptions :=
    assign_if (truthy (get params "highlights")) contentOptions
      "highlights" (Bool true) in
  assign_if (truthy (get params "summary")) contentOptions
    "summary" (Bool true).

(** [r.text?.slice(0, n)]: nothing for a missing text, the leading part of
    a string or an array, a [TypeError] for anything else. *)
Definition textSlice (v : value) (n : nat) : Js.result value :=
  match v with
  | Undefined | Null => Ok Undefined
  | Str s => Ok (Str (slice0 s n))
  | Arr vs => Ok (Arr (firstn n vs))
  | _ => Throw (TypeError "r.text.slice is not a function")
  end.

(** One entry of what the search and find-similar tools return. *)
Definition searchResultItem (r : obj) : Js.result obj :=
  t <- textSlice (get r "text") 1500 ;;
  Ok [ ("title", get r "title"); ("url", get r "url"); ("text", t);
       ("publishedDate", get r "publishedDate") ].

(** One entry of what the contents tool returns. *)
Definition contentsResultItem (r : obj) : Js.result obj :=
  t <- textSlice (get r "text") 3000 ;;
  Ok [ ("title", get r "title"); ("url", get r "url"); ("text", t);
       ("highlights", get r "highlights"); ("summary", get r "summary") ].

(** No key is repeated and every option holds a truthy value. *)
Definition filled (o : obj) : Prop :=
  NoDup (keys o) /\
  forall k, In k (keys o) -> truthy (get o k) = true.

End Tools.

(* ------------------------------------------------------------------ *)
(** * The conversation mapper (app/page.tsx) *)

Module Page.
Import Js.

(** A streamed message part: a plain object whose fields appear as the part
    progresses. *)
Definition part : Type := list (string * any).

(** [part[k]] *)
Fixpoint field (p : part) (k : string) : any :=
  match p with
  | [] => Val Undefined
  | (k', a) :: p' => if k' =? k then a else field p' k
  end.

(** [part.type.startsWith(prefix)]: a [TypeError] unless the tag is a
    string. *)
Definition type_startsWith (p : part) (pre : string) : result bool :=
  match field p "type" with
  | Val (Str t) => Ok (startsWith t pre)
  | Val Undefined | Val Null =>
      Throw (TypeError "Cannot read properties of undefined (reading 'startsWith')")
  | _ => Throw (TypeError "part.type.startsWith is not a function")
  end.

(** [part.type === lit] *)
Definition type_is (p : part) (lit : string) : bool :=
  match field p "type" with
  | Val v => is_str v lit
  | Object _ => false
  end.

(** [part.type.replace(pat, rep)] *)
Definition type_replace (p : part) (pat rep : string) : result string :=
  match field p "type" with
  | Val (Str t) => Ok (replace t pat rep)
  | Val Undefined | Val Null =>
      Throw (TypeError "Cannot read properties of undefined (reading 'replace')")
  | _ => Throw (TypeError "part.type.replace is not a function")
  end.

Record Invocation : Type := {
  toolCallId : any;
  toolName : any;
  args : any;
  state : any;
  result : any;
  errorText : any
}.

(** The filter callback of [getToolInvocations]. *)
Definition isToolPart (p : part) : Js.result bool :=
  static <- type_startsWith p "tool-" ;;
  Ok (static || type_is p "dynamic-tool")%bool.

(** The map callback of [getToolInvocations]. *)
Definition toInvocation (p : part) : Js.result Invocation :=
  static <- type_startsWith p "tool-" ;;
  let isStaticTool := (static && negb (type_is p "dynamic-tool"))%bool in
  name <- (if isStaticTool
           then (n <- type_replace p "tool-" "" ;; Ok (Val (Str n)))
           else Ok (field p "toolName")) ;;
  let input := field p "input" in
  Ok {| toolCallId := field p "toolCallId";
        toolName := name;
        args := if truthy_any input then input else Object [];
        state := field p "state";
        result := field p "output";
        errorText := field p "errorText" |}.

Definition getToolInvocations (parts : list part) :
    Js.result (list Invocation) :=
  tool_parts <- filterM isToolPart parts ;;
  mapM toInvocation tool_parts.

Inductive Status : Type :=
| pending | running | completed | error.

(** [state === lit] on a field of a part. *)
Definition state_is (st : any) (lit : string) : bool :=
  match st with
  | Val v => is_str v lit
  | Object _ => false
  end.

Definition getToolStatus (st : any) : Status :=
  if state_is st "output-available" then completed
  else if state_is st "output-error" then error
  else if state_is st "input-available" then running
  else if state_is st "input-streaming" then running
  else pending.

(** ** The mapper as the specification words it *)

(** A tag names a tool part when it starts with the reserved prefix or is
    the reserved dynamic tag. *)
Definition is_tool_tag (t : string) : Prop :=
  (exists name, t = "tool-" ++ name) \/ t = "dynamic-tool".

(** The tool name of a part tagged [t]: the tag without its prefix, or the
    part's own [toolName] field for the dynamic tag. *)
Definition names_tool (p : part) (t : string) (n : any) : Prop :=
  (forall name, t = "tool-" ++ name -> n = Val (Str name)) /\
  (t = "dynamic-tool" -> n = field p "toolName").

(** The record of a tool part tagged [t]: it carries the part's call id,
    state, output and error text, and the tool name the tag determines. *)
Definition describes (p : part) (t : string) (inv : Invocation) : Prop :=
  names_tool p t (toolName inv) /\
  toolCallId inv = field p "toolCallId" /\
  state inv = field p "state" /\
  result inv = field p "output" /\
  errorText inv = field p "errorText".

(** One record per tool part, in order; every other part is skipped. *)
Inductive mapped : list part -> list Invocation -> Prop :=
| mapped_nil : mapped [] []
| mapped_tool p ps inv invs t :
    field p "type" = Val (Str t) ->
    is_tool_tag t ->
    describes p t inv ->
    mapped ps invs ->
    mapped (p :: ps) (inv :: invs)
| mapped_skip p ps invs t :
    field p "type" = Val (Str t) ->
    ~ is_tool_tag t ->
    mapped ps invs ->
    mapped (p :: ps) invs.

(** The part carries a string tag. *)
Definition tagged (p : part) : Prop :=
  exists t, field p "type" = Val (Str t).

(** The classification by tag, as a test. *)
Definition tool_tag (p : part) : bool :=
  match field p "type" with
  | Val (Str t) => (prefix "tool-" t || (t =? "dynamic-tool"))%bool
  | _ => false
  end.

(** The part has no field [k]. *)
Definition absent (p : part) (k : string) : Prop := ~ In k (map fst p).

(** None of the four lifecycle states. *)
Definition unrecognized (st : any) : Prop :=
  forall s, st = Val (Str s) ->
    s <> "input-streaming" /\ s <> "input-available" /\
    s <> "output-available" /\ s <> "output-error".

(** The safe defaults of the field extraction. *)
Definition defaults (p : part) (inv : Invocation) : Prop :=
  (truthy_any (field p "input") = false -> args inv = Object []) /\
  (absent p "input" -> args inv = Object []) /\
  (absent p "output" -> result inv = Val Undefined) /\
  (absent p "errorText" -> errorText inv = Val Undefined) /\
  (absent p "state" -> state inv = Val Undefined) /\
  (unrecognized (state inv) -> getToolStatus (state inv) = pending).

(** The scenarios of the specification. *)
Definition exa_search_part : part :=
  [ ("type", Val (Str "tool-exa_search"));
    ("toolCallId", Val (Str "call_1"));
    ("state", Val (Str "input-available"));
    ("input", Object [("query", Str "rust ownership")]) ].

Definition exa_contents_part : part :=
  [ ("type", Val (Str "dynamic-tool"));
    ("toolName", Val (Str "exa_contents"));
    ("toolCallId", Val (Str "call_2"));
    ("state", Val (Str "input-streaming")) ].

Definition text_part : part :=
  [ ("type", Val (Str "text")); ("text", Val (Str "Searching.")) ].

(** ** The text of a message *)

(** ["k" in part] *)
Definition has_field (p : part) (k : string) : bool :=
  existsb (fun kv => fst kv =? k) p.

(** What [join] makes of one element: nothing for [null] and [undefined],
    the string form otherwise. *)
Definition join_item (a : any) : string :=
  match a with
  | Val Undefined | Val Null => ""
  | Val v => toString v
  | Object _ => "[object Object]"
  end.

(** The map callback of [getMessageText]:
    ["text" in part ? part.text : ""]. *)
Definition text_of (p : part) : any :=
  if has_field p "text" then field p "text" else Val (Str "").

Definition getMessageText (parts : list part) : string :=
  join "" (map (fun p => join_item (text_of p))
               (filter (fun p => type_is p "text") parts)).

(** ** The chat form *)

(** The status the chat transport reports. *)
Inductive ChatStatus : Type :=
| chat_ready | chat_submitted | chat_streaming | chat_error.

(** The input field, the model notice, the transport's status (which the
    transport updates on its own), and the texts handed to [sendMessage] so
    far (oldest first). *)
Record Form : Type := {
  input : string;
  showModelNotice : bool;
  chat : ChatStatus;
  sent : list string
}.

(** [status === "streaming" || status === "submitted"] *)
Definition isLoading (f : Form) : bool :=
  match chat f with
  | chat_streaming | chat_submitted => true
  | _ => false
  end.

Definition setInput (f : Form) (s : string) : Form :=
  {| input := s; showModelNotice := showModelNotice f; chat := chat f;
     sent := sent f |}.

(** [sendMessage({ text })] *)
Definition sendMessage (f : Form) (text : string) : Form :=
  {| input := input f; showModelNotice := showModelNotice f; chat := chat f;
     sent := (sent f ++ [text])%list |}.

Definition handleSubmit (f : Form) : Form :=
  if (negb (truthy (Str (trim (input f)))) || isLoading f)%bool then f
  else
    let f := {| input := input f; showModelNotice := false; chat := chat f;
                sent := sent f |} in
    let f := sendMessage f (input f) in
    setInput f "".

(** Every character is white space. *)
Fixpoint blank (s : string) : bool :=
  match s with
  | "" => true
  | String c s' => (is_space c && blank s')%bool
  end.

End Page.

(* ------------------------------------------------------------------ *)
(** * The parameter editor (components/ParameterDisplay.tsx) *)

Module ParameterDisplay.
Import Js Tools.

(** The component's own state. *)
Record State : Type := {
  editMode : bool;
  showAllParams : bool
}.

(** [useState(false)] twice: the state of a freshly mounted editor. *)
Definition mount : State := {| editMode := false; showAllParams := false |}.

(** [handleChange]: the ArgumentSet handed to [onChange]. *)
Definition handleChange (args : obj) (k : string) (v : value) : obj :=
  set args k v.

Definition isParamUsed (args : obj) (k : string) : bool :=
  let value := get args k in
  (negb (is_undefined value) && negb (is_null value)
   && negb (is_str value ""))%bool.

(** ** View mode *)



(** The fallback listing for a tool without descriptors:
    [Object.entries(args)] without the [undefined] and [null] values. *)
Definition displayArgs (args : obj) : list (string * value) :=
  filter (fun kv => negb (is_undefined (snd kv)) && negb (is_null (snd kv)))%bool
         args.

Definition renderFallback (args : obj) : list (string * string) :=
  map (fun kv => (fst kv,
                  match snd kv with
                  | Arr vs => joinValues ", " vs
                  | v => toString v
                  end))
      (displayArgs args).

Definition usedParams (args : obj) (ps : list ParameterConfig) :=
  filter (fun p => isParamUsed args (key p)) ps.

Definition unusedParams (args : obj) (ps : list ParameterConfig) :=
  filter (fun p => negb (isParamUsed args (key p))) ps.

(** ** Edit mode *)

(** What the user does to a control: type or pick a text (the control's
    [e.target.value]), leave a numeric field empty or holding the numeral of
    [n], or click the boolean button. *)
Inductive InputEvent : Type :=
| Typed (s : string)
| TypedNumber (n : option Z)
| Clicked.

(** The text shown in the field of an [array] parameter. *)
Definition arrayInputValue (args : obj) (p : ParameterConfig) : string :=
  match get args (key p) with
  | Arr vs => joinValues ", " vs
  | _ => ""
  end.

(** The text shown in a [select], [date] or [text] field:
    [String(value || '')]. *)
Definition textInputValue (args : obj) (p : ParameterConfig) : string :=
  toString (or_else (get args (key p)) (Str "")).

(** The segments an [array] field keeps of its text. *)
Definition parseArray (s : string) : list string :=
  filter (fun seg => 0 <? String.length seg)%nat
         (map trim (split s ","%char)).

(** The [onChange] handlers of [renderInput]: the ArgumentSet handed to
    [onChange], or [None] when the control of this parameter type has no
    such event. *)
Definition onInput (args : obj) (p : ParameterConfig) (ev : InputEvent)
    : option obj :=
  let value := get args (key p) in
  match type p, ev with
  | select, Typed s | date, Typed s | text, Typed s =>
      Some (handleChange args (key p) (or_else (Str s) Undefined))
  | number, TypedNumber None =>
      Some (handleChange args (key p) Undefined)
  | number, TypedNumber (Some n) =>
      Some (handleChange args (key p) (Num n))
  | boolean, Clicked =>
      Some (handleChange args (key p) (Bool (negb (truthy value))))
  | array, Typed s =>
      let arr := parseArray s in
      Some (handleChange args (key p)
              (if (0 <? List.length arr)%nat then Arr (map Str arr)
               else Undefined))
  | _, _ => None
  end.

(** The edit toggle's [onClick]: the next state, and whether
    [onDoneEditing] is called. *)
Definition toggleEdit (hasDoneEditing : bool) (st : State) : State * bool :=
  ({| editMode := negb (editMode st); showAllParams := showAllParams st |},
   (editMode st && hasDoneEditing)%bool).

Definition toggleShowAll (st : State) : State :=
  {| editMode := editMode st; showAllParams := negb (showAllParams st) |}.

(** Which controls the component renders. *)
Definition editToggleShown (editable : bool) (ps : list ParameterConfig) : bool :=
  (negb (List.length ps =? 0)%nat && editable)%bool.

Definition inputsShown (editable : bool) (ps : list ParameterConfig)
    (st : State) : bool :=
  (negb (List.length ps =? 0)%nat && editMode st && editable)%bool.

Definition showAllShown (args : obj) (ps : list ParameterConfig)
    (st : State) : bool :=
  (negb (List.length ps =? 0)%nat
   && (0 <? List.length (unusedParams args ps))%nat
   && negb (editMode st))%bool.

(** ** Sections *)

Definition section_eqb (a b : Section_) : bool :=
  match a, b with
  | search, search | filters, filters | contents, contents => true
  | _, _ => false
  end.

Definition sectionOrder : list Section_ := [search; filters; contents].

(** The [reduce] that groups the descriptors: each is pushed onto the list
    of its section.  (A descriptor always names its section, so the
    ['search'] fallback of the source is never taken.) *)
Definition paramsBySection (ps : list ParameterConfig)
    : Section_ -> list ParameterConfig :=
  fold_left
    (fun acc p =>
       fun s => if section_eqb s (section p) then (acc s ++ [p])%list
                else acc s)
    ps (fun _ => []).

(** The rows of one section: all of them when everything is shown or in
    edit mode, the used ones otherwise. *)
Definition paramsToShow (args : obj) (st : State)
    (sectionParams : list ParameterConfig) : list ParameterConfig :=
  if (showAllParams st || editMode st)%bool then sectionParams
  else filter (fun p => isParamUsed args (key p)) sectionParams.

(** The sections the component renders, in order, each with its rows. *)
Definition renderSections (args : obj) (ps : list ParameterConfig)
    (st : State) : list (Section_ * list ParameterConfig) :=
  flat_map
    (fun sec =>
       let sectionParams := paramsBySection ps sec in
       if (List.length sectionParams =? 0)%nat then []
       else
         let shown := paramsToShow args st sectionParams in
         if ((List.length shown =? 0)%nat
             && negb (showAllParams st) && negb (editMode st))%bool
         then []
         else [(sec, shown)])
    sectionOrder.

(** All rendered rows, top to bottom. *)
Definition rows (args : obj) (ps : list ParameterConfig) (st : State)
    : list ParameterConfig :=
  List.concat (map snd (renderSections args ps st)).

(** An item the array field stores unchanged: not empty, no white space at
    either end, no comma. *)
Definition clean_item (x : string) : Prop :=
  x <> "" /\
  (forall c, first_char x = Some c -> is_space c = false) /\
  (forall c, last_char x = Some c -> is_space c = false) /\
  has_char ","%char x = false.

(** ** The array field as the specification words it *)


(** [x] is the segment [seg] trimmed, and is not empty: [seg] is [x]
    between two runs of white space, and [x] neither starts nor ends with
    white space. *)
Definition trimmed_of (seg x : string) : Prop :=
  x <> "" /\
  (forall c, first_char x = Some c -> is_space c = false) /\
  (forall c, last_char x = Some c -> is_space c = false) /\
  exists l r,
    seg = l ++ x ++ r /\ Page.blank l = true /\ Page.blank r = true.

(** The items kept of the segments, in order: a segment that is empty once
    trimmed (all white space) is discarded, any other gives its trimmed
    text. *)
Inductive kept : list string -> list string -> Prop :=
| kept_nil : kept [] []
| kept_drop seg segs items :
    Page.blank seg = true ->
    kept segs items ->
    kept (seg :: segs) items
| kept_item seg x segs items :
    trimmed_of seg x ->
    kept segs items ->
    kept (seg :: segs) (x :: items).


(** The descriptor of the [includeDomains] parameter. *)
Definition includeDomains_param : ParameterConfig :=
  param "includeDomains" "Include Domains" array filters false
        Undefined None "Only search these domains".

End ParameterDisplay.

(* ------------------------------------------------------------------ *)
(** * The tool call card (components/ToolCallCard.tsx) *)

Module ToolCallCard.
Import Js Tools.

Record Props : Type := {
  toolName : string;
  args : obj;
  result : option string;
  status : Page.Status;
  onRerun : bool              (* whether the parent supplies the callback *)
}.

(** The four [useState] cells. *)
Record State : Type := {
  isExpanded : bool;
  isResultExpanded : bool;
  editedArgs : obj;
  hasUnsavedChanges : bool
}.

(** A mounted card: its props, its state, the state of the embedded
    parameter editor, and the calls made to [onRerun] so far (oldest
    first). *)
Record Card : Type := {
  props : Props;
  state : State;
  editor : ParameterDisplay.State;
  dispatched : list obj
}.

Definition mount (p : Props) : Card :=
  {| props := p;
     state := {| isExpanded := false; isResultExpanded := false;
                 editedArgs := args p; hasUnsavedChanges := false |};
     editor := ParameterDisplay.mount;
     dispatched := [] |}.

(** ** What the card renders *)

(** [status === 'completed' || status === 'error'] *)
Definition editable (p : Props) : bool :=
  match status p with
  | Page.completed | Page.error => true
  | _ => false
  end.

(** [x?.[0]] *)
Definition first (v : value) : value :=
  match v with
  | Arr (x :: _) => x
  | Str (String c _) => Str (String c "")
  | _ => Undefined
  end.

Definition primaryParam (a : obj) : value :=
  or_else (or_else (or_else (get a "query") (get a "url"))
                   (first (get a "urls")))
          (Str "").

(** The line under the tool name, when there is one. *)
Definition primaryLabel (a : obj) : option string :=
  let p := primaryParam a in
  if truthy p then
    let s := toString p in
    Some (slice0 s 60 ++ (if (60 <? String.length s)%nat then "..." else ""))
  else None.

(** The [includeDomains] entry of the summary.  The value is used as an
    array: its [length] is read and [join] is called on it. *)
Definition domainsSummary (v : value) : Js.result (list string) :=
  if truthy v then
    match v with
    | Arr vs =>
        Ok (if (0 <? List.length vs)%nat
            then ["domains: " ++ joinValues ", " vs] else [])
    | Str s =>
        if (0 <? String.length s)%nat
        then Throw (TypeError "args.includeDomains.join is not a function")
        else Ok []
    | _ => Ok []
    end
  else Ok [].

(** [summary.push(x)] *)
Definition push (summary : list string) (x : string) : list string :=
  (summary ++ [x])%list.

Definition getParamsSummary (a : obj) : Js.result (list string) :=
  let summary := [] in
  let summary :=
    if (truthy (get a "type") && negb (is_str (get a "type") "auto"))%bool
    then push summary ("type: " ++ toString (get a "type")) else summary in
  let summary :=
    if truthy (get a "category")
    then push summary ("category: " ++ toString (get a "category"))
    else summary in
  let summary :=
    if (truthy (get a "numResults") && negb (is_num (get a "numResults") 5))%bool
    then push summary ("results: " ++ toString (get a "numResults"))
    else summary in
  domains <- domainsSummary (get a "includeDomains") ;;
  let summary := (summary ++ domains)%list in
  let summary :=
    if (truthy (get a "startPublishedDate")
        || truthy (get a "endPublishedDate"))%bool
    then push summary "date filter" else summary in
  Ok summary.

(** The chips under the header of a collapsed card: at most three, and the
    count of those left out. *)
Definition summaryChips (c : Card) : Js.result (list string * option nat) :=
  paramsSummary <- getParamsSummary (args (props c)) ;;
  if (negb (isExpanded (state c)) && (0 <? List.length paramsSummary)%nat)%bool
  then Ok (firstn 3 paramsSummary,
           if (3 <? List.length paramsSummary)%nat
           then Some (List.length paramsSummary - 3) else None)
  else Ok ([], None).

(** [{result && ...}] *)
Definition hasResult (p : Props) : bool :=
  match result p with
  | Some r => negb (r =? "")
  | None => false
  end.

(** The text of the truncation notice: a quoted string, so the braces and
    what they enclose are part of the text. *)
Definition truncationNotice : string :=
  nl ++ nl ++ "... truncated ({result.length - 2000} more characters)".

(** The text nodes of the expanded result panel, or [None] when the panel
    is not shown. *)
Definition resultPanel (c : Card) : option (list string) :=
  match result (props c) with
  | Some r =>
      if (isExpanded (state c) && hasResult (props c)
          && isResultExpanded (state c))%bool
      then Some (slice0 r 2000 ::
                 (if (2000 <? String.length r)%nat
                  then [truncationNotice] else []))
      else None
  | None => None
  end.

(** The card renders unless building the summary throws. *)
Definition renders (c : Card) : bool :=
  match getParamsSummary (args (props c)) with
  | Ok _ => true
  | Throw _ => false
  end.

(** ** Handlers *)

Definition with_state (c : Card) (s : State) : Card :=
  {| props := props c; state := s; editor := editor c;
     dispatched := dispatched c |}.

Definition with_props (c : Card) (p : Props) : Card :=
  {| props := p; state := state c; editor := editor c;
     dispatched := dispatched c |}.

Definition with_editor (c : Card) (e : ParameterDisplay.State) : Card :=
  {| props := props c; state := state c; editor := e;
     dispatched := dispatched c |}.

Definition setEditedArgs (c : Card) (a : obj) : Card :=
  with_state c {| isExpanded := isExpanded (state c);
                  isResultExpanded := isResultExpanded (state c);
                  editedArgs := a;
                  hasUnsavedChanges := hasUnsavedChanges (state c) |}.

Definition setHasUnsavedChanges (c : Card) (b : bool) : Card :=
  with_state c {| isExpanded := isExpanded (state c);
                  isResultExpanded := isResultExpanded (state c);
                  editedArgs := editedArgs (state c);
                  hasUnsavedChanges := b |}.

Definition setIsExpanded (c : Card) (b : bool) : Card :=
  with_state c {| isExpanded := b;
                  isResultExpanded := isResultExpanded (state c);
                  editedArgs := editedArgs (state c);
                  hasUnsavedChanges := hasUnsavedChanges (state c) |}.

Definition setIsResultExpanded (c : Card) (b : bool) : Card :=
  with_state c {| isExpanded := isExpanded (state c);
                  isResultExpanded := b;
                  editedArgs := editedArgs (state c);
                  hasUnsavedChanges := hasUnsavedChanges (state c) |}.

(** [onRerun(editedArgs)] *)
Definition dispatch (c : Card) : Card :=
  {| props := props c; state := state c; editor := editor c;
     dispatched := (dispatched c ++ [editedArgs (state c)])%list |}.

Definition handleRerun (c : Card) : Card :=
  if onRerun (props c)
  then setHasUnsavedChanges (dispatch c) false
  else c.

Definition handleArgsChange (c : Card) (newArgs : obj) : Card :=
  setHasUnsavedChanges (setEditedArgs c newArgs) true.

Definition handleDoneEditing (c : Card) : Card :=
  if hasUnsavedChanges (state c) then handleRerun c else c.

(** The body of the [useEffect] that follows the upstream arguments. *)
Definition syncEditedArgs (c : Card) : Card :=
  if negb (hasUnsavedChanges (state c))
  then setEditedArgs c (args (props c))
  else c.

(** ** Events *)

Inductive Event : Type :=
| ClickHeader                             (* expand or collapse the card *)
| ClickResultHeader                       (* expand or collapse the result *)
| ClickEditToggle                         (* "Edit parameters" / "Done editing" *)
| ClickShowAll                            (* show or hide unused parameters *)
| Input (k : string) (ev : ParameterDisplay.InputEvent)
| ClickRerun                              (* "Re-run with changes" *)
| NewArgs (a : obj)                       (* the parent passes new arguments *)
| NewResult (r : option string)
| NewStatus (st : Page.Status).

Definition params (c : Card) : list ParameterConfig :=
  getToolParameters (toolName (props c)).

(** The handler an event runs, or [None] when the control it belongs to is
    not on screen. *)
Definition handle (c : Card) (e : Event) : option Card :=
  let st := state c in
  let p := props c in
  match e with
  | ClickHeader =>
      (* the editor lives only inside the expanded part: it is unmounted on
         collapse and mounted afresh on expansion *)
      Some (with_editor (setIsExpanded c (negb (isExpanded st)))
                        ParameterDisplay.mount)
  | ClickResultHeader =>
      if (isExpanded st && hasResult p)%bool
      then Some (setIsResultExpanded c (negb (isResultExpanded st)))
      else None
  | ClickEditToggle =>
      if (isExpanded st
          && ParameterDisplay.editToggleShown (editable p) (params c))%bool
      then
        let (ed, done) := ParameterDisplay.toggleEdit true (editor c) in
        let c' := with_editor c ed in
        Some (if done then handleDoneEditing c' else c')
      else None
  | ClickShowAll =>
      if (isExpanded st
          && ParameterDisplay.showAllShown (editedArgs st) (params c)
               (editor c))%bool
      then Some (with_editor c (ParameterDisplay.toggleShowAll (editor c)))
      else None
  | Input k ev =>
      if (isExpanded st
          && ParameterDisplay.inputsShown (editable p) (params c)
               (editor c))%bool
      then
        match find (fun d => key d =? k) (params c) with
        | Some d =>
            match ParameterDisplay.onInput (editedArgs st) d ev with
            | Some newArgs => Some (handleArgsChange c newArgs)
            | None => None
            end
        | None => None
        end
      else None
  | ClickRerun =>
      if (isExpanded st && onRerun p && editable p)%bool
      then Some (handleRerun c)
      else None
  | NewArgs a =>
      Some (with_props c {| toolName := toolName p; args := a;
                            result := result p; status := status p;
                            onRerun := onRerun p |})
  | NewResult r =>
      Some (with_props c {| toolName := toolName p; args := args p;
                            result := r; status := status p;
                            onRerun := onRerun p |})
  | NewStatus s =>
      Some (with_props c {| toolName := toolName p; args := args p;
                            result := result p; status := s;
                            onRerun := onRerun p |})
  end.

(** Whether the effect's dependencies [[args, hasUnsavedChanges]] differ
    between two renders.  New arguments from the parent are a new object.
    (A parent that passes an equal object under a new identity makes the
    effect run as well; by the invariant [synced] below that run changes
    nothing.) *)
Definition depsChanged (e : Event) (before after : Card) : bool :=
  ((match e with NewArgs _ => true | _ => false end)
   || negb (Bool.eqb (hasUnsavedChanges (state before))
                     (hasUnsavedChanges (state after))))%bool.

(** One event: its handler, the render that follows, and the effect when
    its dependencies changed.  [None] when the event cannot happen or the
    render throws. *)
Definition step (c : Card) (e : Event) : option Card :=
  if renders c then
    match handle c e with
    | Some c' =>
        if renders c'
        then Some (if depsChanged e c c' then syncEditedArgs c' else c')
        else None
    | None => None
    end
  else None.

Fixpoint run (c : Card) (es : list Event) : option Card :=
  match es with
  | [] => Some c
  | e :: es' =>
      match step c e with
      | Some c' => run c' es'
      | None => None
      end
  end.

(** An event that edits a parameter or asks for a re-run. *)
Definition changes_or_reruns (e : Event) : bool :=
  match e with
  | Input _ _ | ClickRerun => true
  | _ => false
  end.

(** The state reached by [es] from [c], or [c] itself when [es] cannot
    happen. *)
Definition after (c : Card) (es : list Event) : Card :=
  match run c es with
  | Some c' => c'
  | None => c
  end.

(** In a clean session the edit buffer mirrors the upstream arguments. *)
Definition synced (c : Card) : Prop :=
  hasUnsavedChanges (state c) = false -> editedArgs (state c) = args (props c).

(** The summary has an entry for [numResults]. *)
Definition has_results_chip (summary : list string) : Prop :=
  exists chip, In chip summary /\ prefix "results: " chip = true.

(** ** Scenarios *)

(** A finished search whose result is 2500 characters long. *)
Definition long_result : string := repeat "a"%char 2500.

Definition finished_search : Props :=
  {| toolName := "exa_search";
     args := [("query", Str "rust ownership"); ("numResults", Num 10)];
     result := Some long_result;
     status := Page.completed;
     onRerun := true |}.

(** The card of [finished_search], expanded, with its result expanded. *)
Definition result_shown : Card :=
  after (mount finished_search) [ClickHeader; ClickResultHeader].

(** The same card in edit mode, nothing edited yet. *)
Definition editing_clean : Card :=
  after (mount finished_search) [ClickHeader; ClickEditToggle].

(** The same card in edit mode after the user changed the query. *)
Definition editing_dirty : Card :=
  after (mount finished_search)
        [ClickHeader; ClickEditToggle; Input "query" (ParameterDisplay.Typed "rust lifetimes")].

(** An event by which the parent passes a new status. *)
Definition changes_status (e : Event) : bool :=
  match e with
  | NewStatus _ => true
  | _ => false
  end.

(** The overflow count, as a number. *)
Definition overflow (more : option nat) : nat :=
  match more with
  | Some n => n
  | None => 0
  end.

End ToolCallCard.

(* ------------------------------------------------------------------ *)
(** * Facts about strings and objects *)

Module JsFacts.
Import Js.

Lemma prefix_nil (s : string) : prefix "" s = true.
Proof. destruct s; reflexivity. Qed.

Lemma prefix_app (p r : string) : prefix p (p ++ r) = true.
Proof.
  induction p as [|c p IH]; simpl.
  - apply prefix_nil.
  - destruct (ascii_dec c c) as [_|ne]; [exact IH | contradiction].
Qed.

Lemma prefix_inv (p s : string) :
  prefix p s = true -> exists r, s = p ++ r.
Proof.
  revert s; induction p as [|c p IH]; intros s H.
  - exists s; reflexivity.
  - destruct s as [|d s]; simpl in H; [discriminate|].
    destruct (ascii_dec c d) as [->|_]; [|discriminate].
    destruct (IH s H) as [r ->]. exists r; reflexivity.
Qed.

Lemma drop_app (p r : string) : drop (String.length p) (p ++ r) = r.
Proof. induction p as [|c p IH]; simpl; [destruct r; reflexivity | exact IH]. Qed.

Lemma replace_prefixed (s p rep : string) :
  prefix p s = true -> replace s p rep = rep ++ drop (String.length p) s.
Proof. intros H. destruct s; cbn [replace]; rewrite H; reflexivity. Qed.

(** Replacing a leading pattern by nothing strips it. *)
Lemma replace_leading (p r : string) : replace (p ++ r) p "" = r.
Proof.
  rewrite (replace_prefixed _ _ _ (prefix_app p r)). apply drop_app.
Qed.

End JsFacts.

(* ------------------------------------------------------------------ *)
(** * The conversation mapper: properties *)

Module PageFacts.
Import Js Page JsFacts.

Lemma field_absent (p : part) (k : string) :
  absent p k -> field p k = Val Undefined.
Proof.
  unfold absent. induction p as [|[k' a] p IH]; simpl; intros H.
  - reflexivity.
  - destruct (k' =? k) eqn:E.
    + apply String.eqb_eq in E. exfalso; apply H; left; exact E.
    + apply IH. intros Hin; apply H; right; exact Hin.
Qed.

Lemma isToolPart_tagged (p : part) :
  tagged p -> isToolPart p = Ok (tool_tag p).
Proof.
  intros [t Ht]. unfold isToolPart, type_startsWith, type_is, tool_tag.
  rewrite Ht. reflexivity.
Qed.

Lemma tool_tag_iff (p : part) (t : string) :
  field p "type" = Val (Str t) ->
  (tool_tag p = true <-> is_tool_tag t).
Proof.
  intros Ht. unfold tool_tag, is_tool_tag. rewrite Ht. split.
  - intros H. apply orb_true_iff in H as [H|H].
    + left. destruct (prefix_inv _ _ H) as [r ->]. exists r; reflexivity.
    + right. apply String.eqb_eq; exact H.
  - intros [[name ->]| ->].
    + rewrite (prefix_app "tool-" name). reflexivity.
    + reflexivity.
Qed.

(** The map callback never throws on a tagged part. *)
Lemma toInvocation_tagged (p : part) (t : string) :
  field p "type" = Val (Str t) ->
  exists inv, toInvocation p = Ok inv /\
    toolCallId inv = field p "toolCallId" /\
    toolName inv = (if prefix "tool-" t then Val (Str (replace t "tool-" ""))
                    else field p "toolName") /\
    args inv = (if truthy_any (field p "input") then field p "input"
                else Object []) /\
    state inv = field p "state" /\
    result inv = field p "output" /\
    errorText inv = field p "errorText".
Proof.
  intros Ht. unfold toInvocation, type_startsWith, type_is, type_replace.
  rewrite Ht. unfold startsWith. cbn [bind].
  destruct (prefix "tool-" t) eqn:Hp.
  - assert (Hd : is_str (Str t) "dynamic-tool" = false).
    { destruct (prefix_inv _ _ Hp) as [r ->]. reflexivity. }
    rewrite Hd. cbn [andb negb bind].
    eexists; repeat split; reflexivity.
  - cbn [andb bind]. eexists; repeat split; reflexivity.
Qed.

Lemma filterM_tagged (parts : list part) :
  Forall tagged parts ->
  filterM isToolPart parts = Ok (filter tool_tag parts).
Proof.
  induction 1 as [|p ps Hp _ IH]; simpl.
  - reflexivity.
  - rewrite (isToolPart_tagged p Hp), IH. simpl.
    destruct (tool_tag p); reflexivity.
Qed.

Lemma mapM_toInvocation (ps : list part) :
  Forall tagged ps ->
  exists invs, mapM toInvocation ps = Ok invs /\
    Forall2 (fun p inv => toInvocation p = Ok inv) ps invs.
Proof.
  induction 1 as [|p ps [t Ht] _ [invs [E F]]]; simpl.
  - exists []; split; [reflexivity | constructor].
  - destruct (toInvocation_tagged p t Ht) as [inv [Ei _]].
    rewrite Ei, E. simpl. exists (inv :: invs). split; [reflexivity|].
    constructor; assumption.
Qed.

(** On tagged parts the mapper returns, with one record per tool part, in
    order. *)
Lemma getToolInvocations_tagged (parts : list part) :
  Forall tagged parts ->
  exists invs, getToolInvocations parts = Ok invs /\
    Forall2 (fun p inv => toInvocation p = Ok inv) (filter tool_tag parts) invs.
Proof.
  intros H. unfold getToolInvocations. rewrite (filterM_tagged parts H).
  simpl. apply mapM_toInvocation.
  apply Forall_forall. intros p Hin. apply filter_In in Hin as [Hin _].
  rewrite Forall_forall in H. exact (H p Hin).
Qed.

(** A part without a string tag makes the mapper throw. *)
Lemma getToolInvocations_untagged :
  exists e, getToolInvocations [[("text", Val (Str "hello"))]] = Throw e.
Proof. eexists; reflexivity. Qed.

Lemma describes_of_tag (p : part) (t : string) (inv : Invocation) :
  field p "type" = Val (Str t) ->
  toInvocation p = Ok inv ->
  describes p t inv.
Proof.
  intros Ht Hi.
  destruct (toInvocation_tagged p t Ht)
    as [inv' [E [Hc [Hn [_ [Hs [Hr He]]]]]]].
  rewrite Hi in E. injection E as <-.
  unfold describes, names_tool. rewrite Hn. repeat split; try assumption.
  - intros name ->. rewrite (prefix_app "tool-" name).
    rewrite (replace_leading "tool-" name). reflexivity.
  - intros ->. reflexivity.
Qed.

Lemma mapped_of_Forall2 (parts : list part) :
  Forall tagged parts ->
  forall invs,
    Forall2 (fun p inv => toInvocation p = Ok inv) (filter tool_tag parts) invs ->
    mapped parts invs.
Proof.
  induction 1 as [|p ps [t Ht] _ IH]; simpl; intros invs F.
  - inversion F; constructor.
  - destruct (tool_tag p) eqn:Hb.
    + inversion F as [|? inv ? invs' Hi F']; subst.
      apply mapped_tool with (t := t).
      * exact Ht.
      * apply (tool_tag_iff p t Ht); exact Hb.
      * apply describes_of_tag; assumption.
      * apply IH; exact F'.
    + apply mapped_skip with (t := t).
      * exact Ht.
      * intros Hs. apply (tool_tag_iff p t Ht) in Hs. congruence.
      * apply IH; exact F.
Qed.

Lemma getToolStatus_unrecognized (st : any) :
  unrecognized st -> getToolStatus st = pending.
Proof.
  intros H. destruct st as [v|o]; [|reflexivity].
  destruct v; try reflexivity.
  destruct (H s eq_refl) as [H1 [H2 [H3 H4]]].
  unfold getToolStatus, state_is, is_str.
  apply String.eqb_neq in H1, H2, H3, H4.
  rewrite H1, H2, H3, H4. reflexivity.
Qed.

Lemma defaults_of_toInvocation (p : part) (inv : Invocation) :
  tagged p -> toInvocation p = Ok inv -> defaults p inv.
Proof.
  intros [t Ht] Hi.
  destruct (toInvocation_tagged p t Ht)
    as [inv' [E [_ [_ [Ha [Hs [Hr He]]]]]]].
  rewrite Hi in E. injection E as <-.
  unfold defaults. repeat split.
  - intros Hf. rewrite Ha, Hf. reflexivity.
  - intros Hab. rewrite Ha, (field_absent p "input" Hab). reflexivity.
  - intros Hab. rewrite Hr. apply field_absent; exact Hab.
  - intros Hab. rewrite He. apply field_absent; exact Hab.
  - intros Hab. rewrite Hs. apply field_absent; exact Hab.
  - apply getToolStatus_unrecognized.
Qed.

(** C6: the display status is a total projection of the lifecycle state:
    "input-streaming" and "input-available" give running, "output-available"
    gives completed, "output-error" gives error, and every other string
    gives pending. *)
Theorem getToolStatus_projection (s : string) :
  (s = "input-streaming" \/ s = "input-available" ->
   getToolStatus (Val (Str s)) = running) /\
  (s = "output-available" -> getToolStatus (Val (Str s)) = completed) /\
  (s = "output-error" -> getToolStatus (Val (Str s)) = error) /\
  (s <> "input-streaming" -> s <> "input-available" ->
   s <> "output-available" -> s <> "output-error" ->
   getToolStatus (Val (Str s)) = pending).
Proof.
  repeat split.
  - intros [-> | ->]; reflexivity.
  - intros ->; reflexivity.
  - intros ->; reflexivity.
  - intros H1 H2 H3 H4. apply getToolStatus_unrecognized.
    intros s' E. injection E as <-. repeat split; assumption.
Qed.

(** C3: on an ordered list of message parts the mapper emits exactly one
    record per tool part, in order, a part being a tool part iff its tag
    starts with "tool-" (the tool name is the rest of the tag) or is
    "dynamic-tool" (the tool name is the part's toolName field); a part
    tagged "tool-exa_search" with input {query: "rust ownership"} in state
    "input-available" maps to toolName "exa_search" and status running. *)
Theorem getToolInvocations_one_per_tool_part :
  (forall parts : list part,
     Forall tagged parts ->
     exists invs, getToolInvocations parts = Ok invs /\ mapped parts invs) /\
  (forall p : part,
     field p "type" = Val (Str "tool-exa_search") ->
     field p "input" = Object [("query", Str "rust ownership")] ->
     field p "state" = Val (Str "input-available") ->
     exists inv,
       getToolInvocations [p] = Ok [inv] /\
       toolName inv = Val (Str "exa_search") /\
       args inv = Object [("query", Str "rust ownership")] /\
       getToolStatus (state inv) = running).
Proof.
  split.
  - intros parts H.
    destruct (getToolInvocations_tagged parts H) as [invs [E F]].
    exists invs. split; [exact E|]. apply mapped_of_Forall2; assumption.
  - intros p Ht Hi Hs.
    destruct (toInvocation_tagged p _ Ht) as [inv [E [_ [Hn [Ha [Hst _]]]]]].
    exists inv. repeat split.
    + unfold getToolInvocations. cbn [filterM].
      rewrite (isToolPart_tagged p (ex_intro _ _ Ht)).
      unfold tool_tag. rewrite Ht. cbn. rewrite E. reflexivity.
    + rewrite Hn. reflexivity.
    + rewrite Ha, Hi. reflexivity.
    + rewrite Hst, Hs. reflexivity.
Qed.

Lemma getToolInvocations_one_per_tool_part_witness :
  (exists invs,
     getToolInvocations [text_part; exa_search_part; exa_contents_part]
       = Ok invs /\
     mapped [text_part; exa_search_part; exa_contents_part] invs) /\
  (exists inv,
     getToolInvocations [exa_search_part] = Ok [inv] /\
     toolName inv = Val (Str "exa_search") /\
     args inv = Object [("query", Str "rust ownership")] /\
     getToolStatus (state inv) = running).
Proof.
  split.
  - apply (proj1 getToolInvocations_one_per_tool_part).
    repeat constructor; eexists; reflexivity.
  - apply (proj2 getToolInvocations_one_per_tool_part exa_search_part);
      reflexivity.
Defined.

(** C8: the mapper does not raise on tool parts whose fields are missing or
    falsy: a falsy or absent input gives the empty mapping as arguments, an
    absent output an undefined result, an absent error text an undefined
    one, an absent state an undefined state, and a state outside the four
    lifecycle values displays as pending. *)
Theorem getToolInvocations_safe_defaults (parts : list part) :
  Forall tagged parts ->
  exists invs,
    getToolInvocations parts = Ok invs /\
    Forall2 defaults (filter tool_tag parts) invs.
Proof.
  intros H. destruct (getToolInvocations_tagged parts H) as [invs [E F]].
  exists invs. split; [exact E|].
  assert (Ht : Forall tagged (filter tool_tag parts)).
  { apply Forall_forall. intros p Hin. apply filter_In in Hin as [Hin _].
    rewrite Forall_forall in H. exact (H p Hin). }
  clear E H. revert Ht.
  induction F as [|p inv ps invs' Hi _ IH]; intros Ht.
  - constructor.
  - inversion Ht as [|? ? Hp Hps]; subst. constructor.
    + apply defaults_of_toInvocation; assumption.
    + apply IH; exact Hps.
Qed.

Lemma getToolInvocations_safe_defaults_witness :
  Forall tagged [exa_contents_part; text_part] /\
  exists invs,
    getToolInvocations [exa_contents_part; text_part] = Ok invs /\
    Forall2 defaults (filter tool_tag [exa_contents_part; text_part]) invs.
Proof.
  assert (H : Forall tagged [exa_contents_part; text_part])
    by (repeat constructor; eexists; reflexivity).
  split; [exact H|].
  exact (getToolInvocations_safe_defaults [exa_contents_part; text_part] H).
Defined.

(** The scenario of the dynamic part without input: the arguments are the
    empty mapping and the tool name is the part's own. *)
Example exa_contents_scenario :
  exists inv,
    getToolInvocations [exa_contents_part] = Ok [inv] /\
    toolName inv = Val (Str "exa_contents") /\
    args inv = Object [] /\
    result inv = Val Undefined /\
    getToolStatus (state inv) = running.
Proof. eexists; repeat split. Qed.

End PageFacts.

(* ------------------------------------------------------------------ *)
(** * The parameter editor: properties *)

Module ParameterDisplayFacts.
Import Js Tools ParameterDisplay JsFacts.

Lemma get_set_same (o : obj) (k : string) (v : value) :
  get (set o k v) k = v.
Proof.
  induction o as [|[k' v'] o IH]; simpl.
  - rewrite String.eqb_refl. reflexivity.
  - destruct (k' =? k) eqn:E; simpl.
    + rewrite String.eqb_refl. reflexivity.
    + rewrite E. exact IH.
Qed.

Lemma get_set_other (o : obj) (k k' : string) (v : value) :
  k <> k' -> get (set o k v) k' = get o k'.
Proof.
  intros Hne. induction o as [|[k0 v0] o IH]; simpl.
  - apply String.eqb_neq in Hne. rewrite Hne. reflexivity.
  - destruct (k0 =? k) eqn:E; simpl.
    + apply String.eqb_eq in E; subst k0.
      apply String.eqb_neq in Hne. rewrite Hne. reflexivity.
    + destruct (k0 =? k'); [reflexivity | exact IH].
Qed.

Lemma get_absent (o : obj) (k : string) :
  ~ In k (keys o) -> get o k = Undefined.
Proof.
  induction o as [|[k' v'] o IH]; simpl; intros H.
  - reflexivity.
  - destruct (k' =? k) eqn:E.
    + apply String.eqb_eq in E. exfalso; apply H; left; exact E.
    + apply IH. intros Hin; apply H; right; exact Hin.
Qed.

(** Writing a property keeps the other keys and makes [k] a key. *)
Lemma keys_set (o : obj) (k : string) (v : value) (k' : string) :
  In k' (keys (set o k v)) <-> k' = k \/ In k' (keys o).
Proof.
  induction o as [|[k0 v0] o IH]; simpl.
  - split; [intros [<-|[]]; left; reflexivity | intros [->|[]]; left; reflexivity].
  - destruct (k0 =? k) eqn:E; simpl.
    + apply String.eqb_eq in E; subst k0. split.
      * intros [<-|H]; [left; reflexivity | right; right; exact H].
      * intros [->|[<-|H]]; [left; reflexivity | left; reflexivity | right; exact H].
    + rewrite IH. split.
      * intros [<-|[->|H]]; [right; left; reflexivity | left; reflexivity
                            | right; right; exact H].
      * intros [->|[<-|H]]; [right; left; reflexivity | left; reflexivity
                            | right; right; exact H].
Qed.


(** ** [split], [trim] and the array field *)

Lemma split_nonempty (s : string) (c : ascii) : split s c <> [].
Proof.
  destruct s as [|a s]; simpl; [discriminate|].
  destruct (Ascii.eqb a c); [discriminate|].
  destruct (split s c); discriminate.
Qed.


(** No segment contains the separator. *)
Lemma split_no_separator (s : string) (c : ascii) :
  Forall (fun seg => has_char c seg = false) (split s c).
Proof.
  induction s as [|a s IH]; simpl.
  - repeat constructor.
  - destruct (Ascii.eqb a c) eqn:E.
    + constructor; [reflexivity | exact IH].
    + destruct (split s c) as [|seg segs].
      * constructor; [simpl; rewrite E; reflexivity | constructor].
      * inversion IH; subst. constructor; [|assumption].
        simpl. rewrite E. assumption.
Qed.

(** The kept segments are exactly the non-empty trimmed segments. *)
Lemma parseArray_spec (s x : string) :
  In x (parseArray s) <->
  exists seg, In seg (split s ","%char) /\ x = trim seg /\ x <> "".
Proof.
  unfold parseArray. rewrite filter_In, in_map_iff. split.
  - intros [[seg [<- Hin]] Hlen]. exists seg. repeat split; auto.
    intros E. rewrite E in Hlen. discriminate.
  - intros [seg [Hin [-> Hne]]]. split; [exists seg; auto|].
    destruct (trim seg); [contradiction | reflexivity].
Qed.

Lemma parseArray_all_empty (s : string) :
  Forall (fun seg => trim seg = "") (split s ","%char) ->
  parseArray s = [].
Proof.
  unfold parseArray. induction (split s ","%char) as [|seg segs IH];
    intros H; simpl.
  - reflexivity.
  - inversion H as [|? ? Hs Hr]; subst. rewrite Hs. simpl. apply IH; exact Hr.
Qed.

(** ** What [trim] leaves *)

Lemma trimStart_first (s : string) (c : ascii) :
  first_char (trimStart s) = Some c -> is_space c = false.
Proof.
  induction s as [|a s IH]; simpl; [discriminate|].
  destruct (is_space a) eqn:E; [exact IH|].
  simpl. intros H; injection H as <-. exact E.
Qed.

Lemma trimEnd_first (s : string) (c : ascii) :
  first_char (trimEnd s) = Some c -> first_char s = Some c.
Proof.
  destruct s as [|a s]; simpl; [discriminate|].
  destruct (trimEnd s); [destruct (is_space a)|]; simpl;
    [discriminate | auto | auto].
Qed.

Lemma trimEnd_last (s : string) (c : ascii) :
  last_char (trimEnd s) = Some c -> is_space c = false.
Proof.
  induction s as [|a s IH]; simpl; [discriminate|].
  destruct (trimEnd s) as [|b t] eqn:E.
  - destruct (is_space a) eqn:Ea; simpl; [discriminate|].
    intros H; injection H as <-. exact Ea.
  - intros H. apply IH. exact H.
Qed.

Lemma has_char_trimStart (c : ascii) (s : string) :
  has_char c s = false -> has_char c (trimStart s) = false.
Proof.
  induction s as [|a s IH]; simpl; [reflexivity|].
  intros H. apply orb_false_iff in H as [Ha Hs].
  destruct (is_space a); [apply IH; exact Hs|].
  simpl. rewrite Ha, Hs. reflexivity.
Qed.

Lemma has_char_trimEnd (c : ascii) (s : string) :
  has_char c s = false -> has_char c (trimEnd s) = false.
Proof.
  induction s as [|a s IH]; simpl; [reflexivity|].
  intros H. apply orb_false_iff in H as [Ha Hs]. specialize (IH Hs).
  destruct (trimEnd s) as [|b t].
  - destruct (is_space a); simpl; [reflexivity | rewrite Ha; reflexivity].
  - change (has_char c (String a (String b t)))
      with (Ascii.eqb a c || has_char c (String b t))%bool.
    rewrite Ha, IH. reflexivity.
Qed.

(** Every stored item is non-empty, has no white space at either end and
    holds no comma. *)
Lemma parseArray_items (s x : string) :
  In x (parseArray s) ->
  x <> "" /\
  (forall c, first_char x = Some c -> is_space c = false) /\
  (forall c, last_char x = Some c -> is_space c = false) /\
  has_char ","%char x = false.
Proof.
  intros H. apply parseArray_spec in H as [seg [Hin [-> Hne]]].
  split; [exact Hne|]. unfold trim. repeat split.
  - intros c Hc. apply trimEnd_first in Hc.
    apply (trimStart_first seg c Hc).
  - intros c. apply trimEnd_last.
  - apply has_char_trimEnd, has_char_trimStart.
    pose proof (split_no_separator s ","%char) as Hall.
    rewrite Forall_forall in Hall. apply Hall; exact Hin.
Qed.

Lemma joinValues_strings (sep : string) (l : list string) :
  joinValues sep (map Str l) = join sep l.
Proof.
  unfold joinValues. rewrite map_map. simpl. rewrite map_id. reflexivity.
Qed.

(** C5: a parameter key is unused iff its value is undefined (also when the
    key is missing), null or the empty string; a key holding false or 0 is
    used. *)
Theorem isParamUsed_unused_iff (args : obj) (k : string) :
  (isParamUsed args k = false <->
   get args k = Undefined \/ get args k = Null \/ get args k = Str "") /\
  (~ In k (keys args) -> isParamUsed args k = false) /\
  (get args k = Bool false -> isParamUsed args k = true) /\
  (get args k = Num 0 -> isParamUsed args k = true).
Proof.
  unfold isParamUsed. repeat split.
  - destruct (get args k) as [| |b|n| |s|vs]; simpl; try discriminate; auto.
    destruct s; simpl; [auto | discriminate].
  - intros [->|[->| ->]]; reflexivity.
  - intros H. rewrite (get_absent args k H). reflexivity.
  - intros ->; reflexivity.
  - intros ->; reflexivity.
Qed.

(** The cleared key stays an own property of the object, with the value
    undefined. *)
Lemma cleared_key_stays_own_property (args : obj) (p : ParameterConfig) :
  type p = array ->
  exists args',
    onInput args p (Typed "") = Some args' /\
    In (key p) (keys args') /\ get args' (key p) = Undefined.
Proof.
  intros Ht. unfold onInput. rewrite Ht. eexists. split; [reflexivity|].
  unfold handleChange. simpl. split.
  - apply keys_set. left; reflexivity.
  - apply get_set_same.
Qed.

End ParameterDisplayFacts.

(* ------------------------------------------------------------------ *)
(** * The tool call card: properties *)

Module ToolCallCardFacts.
Import Js Tools ToolCallCard JsFacts.

(** ** The result panel *)

Lemma substring_length (n : nat) (s : string) :
  (n <= String.length s)%nat -> String.length (substring 0 n s) = n.
Proof.
  revert s; induction n as [|n IH]; intros s H.
  - destruct s; reflexivity.
  - destruct s as [|c s]; simpl in *; [lia|]. rewrite IH; [reflexivity | lia].
Qed.

Lemma substring_prefix (n : nat) (s : string) :
  prefix (substring 0 n s) s = true.
Proof.
  revert s; induction n as [|n IH]; intros s.
  - destruct s; reflexivity.
  - destruct s as [|c s]; simpl; [reflexivity|].
    destruct (ascii_dec c c) as [_|ne]; [apply IH | contradiction].
Qed.

(** A result longer than 2000 characters shows its first 2000 characters
    followed by the fixed notice text. *)
Lemma resultPanel_long (c : Card) (r : string) :
  result (props c) = Some r ->
  isExpanded (state c) = true ->
  isResultExpanded (state c) = true ->
  (2000 < String.length r)%nat ->
  resultPanel c = Some [slice0 r 2000; truncationNotice] /\
  String.length (slice0 r 2000) = 2000 /\
  prefix (slice0 r 2000) r = true.
Proof.
  intros Hr He Hx Hlen. unfold resultPanel, hasResult. rewrite Hr, He, Hx.
  assert (Hne : (r =? "") = false).
  { destruct r; [simpl in Hlen; lia | reflexivity]. }
  rewrite Hne. apply Nat.ltb_lt in Hlen. rewrite Hlen.
  apply Nat.ltb_lt in Hlen. repeat split.
  - apply substring_length; lia.
  - apply substring_prefix.
Qed.

(** C1, at a result of 2500 characters: the expanded panel shows exactly the
    first 2000 characters, followed by a notice whose text is the literal
    "{result.length - 2000}" and not the count 500. *)
Theorem resultPanel_at_2500 :
  String.length long_result = 2500 /\
  resultPanel result_shown
    = Some [slice0 long_result 2000; truncationNotice] /\
  slice0 long_result 2000 = repeat "a"%char 2000 /\
  truncationNotice
    = nl ++ nl ++ "... truncated ({result.length - 2000} more characters)" /\
  includes truncationNotice "500" = false.
Proof. vm_compute. repeat split. Qed.

(** ** The summary of the collapsed card *)

(** The scenario of the specification: the query is the primary label. *)
Example primaryLabel_query :
  primaryLabel [("query", Str "rust ownership")] = Some "rust ownership".
Proof. reflexivity. Qed.

Lemma domainsSummary_shape (v : value) (d : list string) :
  domainsSummary v = Ok d ->
  d = [] \/ exists x, d = ["domains: " ++ x].
Proof.
  unfold domainsSummary.
  destruct (truthy v); [|intros E; injection E as <-; auto].
  destruct v as [| |b|n| |s|vs];
    try (intros E; injection E as <-; left; reflexivity).
  - destruct (0 <? String.length s)%nat; [discriminate|].
    intros E; injection E as <-; auto.
  - destruct (0 <? List.length vs)%nat; intros E; injection E as <-.
    + right. eexists; reflexivity.
    + left; reflexivity.
Qed.

(** The summary throws only when [includeDomains] is a non-empty string. *)
Lemma getParamsSummary_returns (a : obj) :
  (forall s, get a "includeDomains" <> Str s \/ s = "") ->
  exists summary, getParamsSummary a = Ok summary.
Proof.
  intros H. unfold getParamsSummary, domainsSummary.
  destruct (get a "includeDomains") as [| |b|n| |s|vs]; simpl;
    try (eexists; reflexivity).
  - destruct b; eexists; reflexivity.
  - destruct (n =? 0)%Z; eexists; reflexivity.
  - destruct (H s) as [Hn| ->]; [congruence|]. eexists; reflexivity.
Qed.

Lemma is_num_false (v : value) (n : Z) : is_num v n = false <-> v <> Num n.
Proof.
  destruct v as [| |b|m| |s|vs]; simpl; try (split; [discriminate | reflexivity]).
  rewrite Z.eqb_neq. split; [congruence | intros H E; apply H; congruence].
Qed.

(** The entries of the summary, in order: at most one for the type, at most
    one for the category, the one for [numResults] when it is wanted, then
    the rest; only the [numResults] entry starts with "results: ". *)
Lemma getParamsSummary_shape (a : obj) (summary : list string) :
  getParamsSummary a = Ok summary ->
  exists l1 l2 rest,
    summary =
      (l1 ++ l2 ++
       (if (truthy (get a "numResults")
            && negb (is_num (get a "numResults") 5))%bool
        then [("results: " ++ toString (get a "numResults"))%string]
        else [])
       ++ rest)%list /\
    (List.length l1 <= 1)%nat /\ (List.length l2 <= 1)%nat /\
    Forall (fun chip => prefix "results: " chip = false)
           (l1 ++ l2 ++ rest)%list.
Proof.
  unfold getParamsSummary, push.
  destruct (domainsSummary (get a "includeDomains")) as [d|e] eqn:Hd;
    [|discriminate].
  cbn [bind]. intros E; injection E as <-.
  apply domainsSummary_shape in Hd.
  exists (if (truthy (get a "type") && negb (is_str (get a "type") "auto"))%bool
          then ["type: " ++ toString (get a "type")] else []).
  exists (if truthy (get a "category")
          then ["category: " ++ toString (get a "category")] else []).
  exists (d ++ (if (truthy (get a "startPublishedDate")
                    || truthy (get a "endPublishedDate"))%bool
                then ["date filter"] else []))%list.
  destruct (truthy (get a "type") && negb (is_str (get a "type") "auto"))%bool;
  destruct (truthy (get a "category"));
  destruct (truthy (get a "numResults")
            && negb (is_num (get a "numResults") 5))%bool;
  destruct (truthy (get a "startPublishedDate")
            || truthy (get a "endPublishedDate"))%bool;
  destruct Hd as [-> | [x ->]];
  (repeat split; [simpl; lia | simpl; lia | repeat constructor]).
Qed.

(** C9, as the code has it: the summary contains an entry for numResults
    exactly when numResults is truthy (neither missing, null, false, 0, NaN
    nor the empty string) and is not the number 5; the entry reads
    "results: " followed by the value and is one of the three chips shown;
    numResults = 5 gives no entry and numResults = 10 gives "results: 10". *)
Theorem results_chip_iff (a : obj) (summary : list string) :
  getParamsSummary a = Ok summary ->
  (has_results_chip summary <->
   truthy (get a "numResults") = true /\ get a "numResults" <> Num 5) /\
  (truthy (get a "numResults") = true -> get a "numResults" <> Num 5 ->
   In ("results: " ++ toString (get a "numResults")) (firstn 3 summary)) /\
  (get a "numResults" = Num 5 -> ~ has_results_chip summary) /\
  (get a "numResults" = Num 10 -> In "results: 10" summary).
Proof.
  intros H.
  destruct (getParamsSummary_shape a summary H)
    as [l1 [l2 [rest [-> [H1 [H2 Hno]]]]]].
  set (v := get a "numResults") in *.
  assert (Hw : (truthy v && negb (is_num v 5))%bool = true <->
               truthy v = true /\ v <> Num 5).
  { rewrite andb_true_iff, negb_true_iff, is_num_false. reflexivity. }
  assert (Hiff : has_results_chip
                   (l1 ++ l2 ++
                    (if (truthy v && negb (is_num v 5))%bool
                     then [("results: " ++ toString v)%string] else [])
                    ++ rest)%list
                 <-> truthy v = true /\ v <> Num 5).
  { rewrite <- Hw. unfold has_results_chip. split.
    - intros [chip [Hin Hp]].
      destruct (truthy v && negb (is_num v 5))%bool; [reflexivity|].
      exfalso. rewrite Forall_forall in Hno.
      rewrite (Hno chip) in Hp; [discriminate|].
      rewrite !in_app_iff in *. simpl in Hin. tauto.
    - intros ->. exists ("results: " ++ toString v). split.
      + rewrite !in_app_iff. right; right; left; left; reflexivity.
      + apply prefix_app. }
  split; [exact Hiff|]. split; [|split].
  - intros Ht Hn. destruct Hw as [_ Hw]. rewrite (Hw (conj Ht Hn)).
    destruct l1 as [|x1 [|y1 l1]]; [| |simpl in H1; lia];
      (destruct l2 as [|x2 [|y2 l2]]; [| |simpl in H2; lia]);
      simpl; auto.
  - intros E [Ht Hn]%Hiff. contradiction.
  - intros E. destruct Hw as [_ Hw]. rewrite Hw.
    + rewrite E. rewrite !in_app_iff. right; right; left; left; reflexivity.
    + rewrite E. split; [reflexivity | discriminate].
Qed.

Lemma results_chip_iff_witness :
  getParamsSummary (args finished_search)
    = Ok ["results: 10"] /\
  (has_results_chip ["results: 10"] <->
   truthy (get (args finished_search) "numResults") = true /\
   get (args finished_search) "numResults" <> Num 5).
Proof.
  assert (H : getParamsSummary (args finished_search) = Ok ["results: 10"])
    by reflexivity.
  split; [exact H|].
  exact (proj1 (results_chip_iff (args finished_search) ["results: 10"] H)).
Defined.

(** C9 as stated fails at numResults = 0: the value differs from 5 and the
    summary has no entry for it. *)
Lemma zero_results_no_chip :
  get [("numResults", Num 0)] "numResults" <> Num 5 /\
  getParamsSummary [("numResults", Num 0)] = Ok [] /\
  ~ has_results_chip [].
Proof.
  split; [discriminate|]. split; [reflexivity|].
  intros [chip [[] _]].
Qed.

(** ** The edit session *)

Lemma syncEditedArgs_keeps (c : Card) :
  hasUnsavedChanges (state (syncEditedArgs c)) = hasUnsavedChanges (state c) /\
  dispatched (syncEditedArgs c) = dispatched c /\
  props (syncEditedArgs c) = props c /\
  editor (syncEditedArgs c) = editor c /\
  isExpanded (state (syncEditedArgs c)) = isExpanded (state c).
Proof.
  unfold syncEditedArgs.
  destruct (hasUnsavedChanges (state c)) eqn:D; simpl;
    repeat split; auto.
Qed.

Ltac case_guards H :=
  repeat match type of H with
         | (if ?b then _ else _) = Some _ =>
             let E := fresh "G" in destruct b eqn:E; [|discriminate H]
         | match ?o with Some _ => _ | None => _ end = Some _ =>
             let E := fresh "G" in destruct o eqn:E; [|discriminate H]
         end.

(** Events other than a new set of arguments leave the props' arguments
    alone. *)
Lemma handle_keeps_args (c c' : Card) (e : Event) :
  (forall a, e <> NewArgs a) ->
  handle c e = Some c' -> args (props c') = args (props c).
Proof.
  intros Hne H. destruct e; simpl in H; case_guards H;
    try (injection H as <-; simpl; reflexivity).
  - unfold handleDoneEditing, handleRerun in H.
    injection H as <-.
    destruct (ParameterDisplay.editMode (editor c)); simpl;
      destruct (hasUnsavedChanges (state c)); simpl;
      destruct (onRerun (props c)); reflexivity.
  - injection H as <-. unfold handleRerun.
    destruct (onRerun (props c)); reflexivity.
  - exfalso; exact (Hne a eq_refl).
Qed.

(** A handler either leaves the log alone or appends the edit buffer to it
    and clears the dirty flag. *)
Lemma handle_dispatch (c c' : Card) (e : Event) :
  handle c e = Some c' ->
  dispatched c' = dispatched c \/
  (dispatched c' = (dispatched c ++ [editedArgs (state c)])%list /\
   hasUnsavedChanges (state c') = false).
Proof.
  intros H. destruct e; simpl in H; case_guards H;
    try (injection H as <-; simpl; left; reflexivity).
  - injection H as <-. unfold handleDoneEditing, handleRerun.
    destruct (ParameterDisplay.editMode (editor c)); simpl; [|left; reflexivity].
    destruct (hasUnsavedChanges (state c)); simpl; [|left; reflexivity].
    destruct (onRerun (props c)); simpl; [right; split; reflexivity
                                         | left; reflexivity].
  - injection H as <-. unfold handleRerun.
    destruct (onRerun (props c)); simpl; [right; split; reflexivity
                                         | left; reflexivity].
Qed.

Lemma step_inv (c c' : Card) (e : Event) :
  step c e = Some c' ->
  renders c = true /\
  exists c1, handle c e = Some c1 /\ renders c1 = true /\
             c' = (if depsChanged e c c1 then syncEditedArgs c1 else c1).
Proof.
  unfold step. intros H.
  destruct (renders c); [|discriminate].
  destruct (handle c e) as [c1|]; [|discriminate].
  destruct (renders c1) eqn:R; [|discriminate].
  injection H as <-. split; [reflexivity|]. exists c1. auto.
Qed.

(** Every re-run dispatch hands over the edit buffer and clears the dirty
    flag. *)
Lemma step_dispatch (c c' : Card) (e : Event) :
  step c e = Some c' ->
  dispatched c' = dispatched c \/
  (dispatched c' = (dispatched c ++ [editedArgs (state c)])%list /\
   hasUnsavedChanges (state c') = false).
Proof.
  intros H. apply step_inv in H as [_ [c1 [H [_ ->]]]].
  apply handle_dispatch in H.
  destruct (syncEditedArgs_keeps c1) as [Hd [Hl _]].
  destruct (depsChanged e c c1); [rewrite Hd, Hl|]; exact H.
Qed.

(** In a clean session, events that neither edit a parameter nor ask for a
    re-run dispatch nothing and leave the session clean. *)
Lemma handle_quiet (c c' : Card) (e : Event) :
  changes_or_reruns e = false ->
  hasUnsavedChanges (state c) = false ->
  handle c e = Some c' ->
  hasUnsavedChanges (state c') = false /\ dispatched c' = dispatched c.
Proof.
  intros Hq Hc H. destruct e; simpl in Hq; try discriminate;
    simpl in H; case_guards H; injection H as <-; simpl; auto.
  unfold handleDoneEditing. simpl. rewrite Hc.
  destruct (ParameterDisplay.editMode (editor c)); simpl; auto.
Qed.

Lemma step_quiet (c c' : Card) (e : Event) :
  changes_or_reruns e = false ->
  hasUnsavedChanges (state c) = false ->
  step c e = Some c' ->
  hasUnsavedChanges (state c') = false /\ dispatched c' = dispatched c.
Proof.
  intros Hq Hc H. apply step_inv in H as [_ [c1 [H [_ ->]]]].
  apply (handle_quiet c c1 e Hq Hc) in H.
  destruct (syncEditedArgs_keeps c1) as [Hd [Hl _]].
  destruct (depsChanged e c c1); [rewrite Hd, Hl|]; exact H.
Qed.

Lemma run_quiet (es : list Event) :
  forall c c',
    forallb (fun e => negb (changes_or_reruns e)) es = true ->
    hasUnsavedChanges (state c) = false ->
    run c es = Some c' ->
    hasUnsavedChanges (state c') = false /\ dispatched c' = dispatched c.
Proof.
  induction es as [|e es IH]; simpl; intros c c' Hq Hc H.
  - injection H as <-. auto.
  - apply andb_true_iff in Hq as [He Hq]. apply negb_true_iff in He.
    destruct (step c e) as [c1|] eqn:E; [|discriminate].
    destruct (step_quiet c c1 e He Hc E) as [Hc1 Hd1].
    destruct (IH c1 c' Hq Hc1 H) as [Hc' Hd']. split; congruence.
Qed.

(** The invariant of the edit session: it holds at mount and after every
    event. *)
Lemma mount_synced (p : Props) : synced (mount p).
Proof. intros _; reflexivity. Qed.

Lemma step_synced (c c' : Card) (e : Event) :
  synced c -> step c e = Some c' -> synced c'.
Proof.
  unfold synced. intros Hs H.
  apply step_inv in H as [_ [c1 [H [_ ->]]]].
  unfold depsChanged, syncEditedArgs.
  destruct (hasUnsavedChanges (state c)) eqn:D;
  destruct e; simpl in H; case_guards H; injection H as <-;
    unfold handleDoneEditing, handleRerun;
    try destruct (ParameterDisplay.editMode (editor c));
    simpl; rewrite ?D; simpl;
    try destruct (onRerun (props c));
    simpl; rewrite ?D; simpl; intros; try congruence; auto.
Qed.

Ltac open_card c :=
  destruct c as [[tn a r st orr] [ex rex ea dirty] [em sa] log];
  unfold step, renders in *; simpl in *;
  unfold params in *; simpl in *; subst.

(** C2: when the parent passes new arguments, a dirty edit session keeps
    its edit buffer and a clean one takes the new arguments as its
    buffer. *)
Theorem upstream_args_and_dirty (c : Card) (a' : obj) :
  renders c = true ->
  (exists summary, getParamsSummary a' = Ok summary) ->
  exists c',
    step c (NewArgs a') = Some c' /\
    args (props c') = a' /\
    hasUnsavedChanges (state c') = hasUnsavedChanges (state c) /\
    (hasUnsavedChanges (state c) = true ->
     editedArgs (state c') = editedArgs (state c)) /\
    (hasUnsavedChanges (state c) = false ->
     editedArgs (state c') = a').
Proof.
  intros Hr [summary Hs]. open_card c.
  destruct (getParamsSummary a); [|discriminate].
  rewrite Hs. unfold syncEditedArgs. simpl.
  destruct dirty; simpl; eexists; repeat split; auto; discriminate.
Qed.

Lemma upstream_args_and_dirty_witness :
  let a' := [("query", Str "rust ownership rules")] in
  (exists c',
     step editing_dirty (NewArgs a') = Some c' /\
     editedArgs (state c') = editedArgs (state editing_dirty)) /\
  (exists c',
     step editing_clean (NewArgs a') = Some c' /\
     editedArgs (state c') = a').
Proof.
  intros a'. split.
  - destruct (upstream_args_and_dirty editing_dirty a' eq_refl
                (ex_intro _ [] eq_refl)) as [c' [E [_ [_ [Hd _]]]]].
    exists c'. split; [exact E | exact (Hd eq_refl)].
  - destruct (upstream_args_and_dirty editing_clean a' eq_refl
                (ex_intro _ [] eq_refl)) as [c' [E [_ [_ [_ Hc]]]]].
    exists c'. split; [exact E | exact (Hc eq_refl)].
Defined.

(** C7: with a clean edit session, switching edit mode on and then off
    without a change leaves the edit buffer and the upstream arguments as
    they were and dispatches no re-run. *)
Theorem edit_toggle_round_trip (c : Card) :
  renders c = true ->
  isExpanded (state c) = true ->
  editable (props c) = true ->
  params c <> [] ->
  ParameterDisplay.editMode (editor c) = false ->
  hasUnsavedChanges (state c) = false ->
  exists c1 c2,
    step c ClickEditToggle = Some c1 /\
    ParameterDisplay.editMode (editor c1) = true /\
    step c1 ClickEditToggle = Some c2 /\
    ParameterDisplay.editMode (editor c2) = false /\
    editedArgs (state c2) = editedArgs (state c) /\
    args (props c2) = args (props c) /\
    hasUnsavedChanges (state c2) = false /\
    dispatched c2 = dispatched c.
Proof.
  intros Hr He Hed Hp Hm Hc. open_card c.
  destruct (getParamsSummary a) eqn:Hs; [|discriminate].
  unfold ParameterDisplay.editToggleShown. rewrite Hed.
  destruct (getToolParameters tn) as [|d ds] eqn:Hg; [contradiction|].
  simpl. rewrite Hs.
  do 2 eexists. split; [reflexivity|]. split; [reflexivity|].
  split.
  { simpl. rewrite Hs, Hg, Hed. simpl. rewrite Hs. reflexivity. }
  simpl. repeat split.
Qed.

Lemma edit_toggle_round_trip_witness :
  let c := after (mount finished_search) [ClickHeader] in
  exists c1 c2,
    step c ClickEditToggle = Some c1 /\
    ParameterDisplay.editMode (editor c1) = true /\
    step c1 ClickEditToggle = Some c2 /\
    ParameterDisplay.editMode (editor c2) = false /\
    editedArgs (state c2) = editedArgs (state c) /\
    args (props c2) = args (props c) /\
    hasUnsavedChanges (state c2) = false /\
    dispatched c2 = dispatched c.
Proof.
  intros c.
  apply (edit_toggle_round_trip c);
    solve [reflexivity | vm_compute; discriminate].
Defined.

(** The re-run button, when it is on screen. *)
Lemma step_ClickRerun (c : Card) :
  renders c = true ->
  isExpanded (state c) = true ->
  editable (props c) = true ->
  onRerun (props c) = true ->
  exists c1,
    step c ClickRerun = Some c1 /\
    hasUnsavedChanges (state c1) = false /\
    dispatched c1 = (dispatched c ++ [editedArgs (state c)])%list /\
    props c1 = props c /\
    editor c1 = editor c /\
    isExpanded (state c1) = true /\
    renders c1 = true.
Proof.
  intros Hr He Hed Ho. unfold step. rewrite Hr.
  unfold handle. rewrite He, Hed, Ho. cbn [andb].
  unfold handleRerun. rewrite Ho.
  set (c' := setHasUnsavedChanges (dispatch c) false).
  assert (Hr' : renders c' = true) by exact Hr.
  rewrite Hr'.
  destruct (syncEditedArgs_keeps c') as [Hd [Hl [Hp [Hm Hx]]]].
  eexists. split; [reflexivity|].
  destruct (depsChanged ClickRerun c c').
  - rewrite Hd, Hl, Hp, Hm, Hx. unfold renders. rewrite Hp.
    repeat split; try reflexivity; assumption.
  - repeat split; try reflexivity; assumption.
Qed.

(** Leaving edit mode, when the toggle is on screen. *)
Lemma step_toggle_off (c : Card) :
  renders c = true ->
  isExpanded (state c) = true ->
  editable (props c) = true ->
  params c <> [] ->
  ParameterDisplay.editMode (editor c) = true ->
  exists c2,
    step c ClickEditToggle = Some c2 /\
    ParameterDisplay.editMode (editor c2) = false.
Proof.
  intros Hr He Hed Hp Hm. unfold step. rewrite Hr.
  unfold handle, ParameterDisplay.editToggleShown, ParameterDisplay.toggleEdit.
  rewrite He, Hed, Hm.
  destruct (params c) as [|d ds]; [contradiction|]. cbn [andb negb List.length Nat.eqb].
  set (c' := handleDoneEditing _).
  assert (Hp' : props c' = props c /\ editor c' =
            {| ParameterDisplay.editMode := false;
               ParameterDisplay.showAllParams :=
                 ParameterDisplay.showAllParams (editor c) |}).
  { unfold c', handleDoneEditing, handleRerun. simpl.
    destruct (hasUnsavedChanges (state c)); [|split; reflexivity].
    destruct (onRerun (props c)); split; reflexivity. }
  destruct Hp' as [Hp' Hm'].
  assert (Hr' : renders c' = true) by (unfold renders; rewrite Hp'; exact Hr).
  rewrite Hr'.
  destruct (syncEditedArgs_keeps c') as [_ [_ [_ [Hk _]]]].
  eexists. split; [reflexivity|].
  destruct (depsChanged ClickEditToggle c c');
    [rewrite Hk|]; rewrite Hm'; reflexivity.
Qed.

(** C10: every re-run dispatch clears the dirty flag; so when the re-run
    button is clicked in edit mode and edit mode is then left without a
    parameter change in between, exactly one re-run is dispatched, and no
    later event that neither edits a parameter nor asks for a re-run
    dispatches another. *)
Theorem rerun_then_done_dispatches_once (c : Card) :
  renders c = true ->
  isExpanded (state c) = true ->
  editable (props c) = true ->
  onRerun (props c) = true ->
  params c <> [] ->
  ParameterDisplay.editMode (editor c) = true ->
  exists c1 c2,
    step c ClickRerun = Some c1 /\
    hasUnsavedChanges (state c1) = false /\
    dispatched c1 = (dispatched c ++ [editedArgs (state c)])%list /\
    step c1 ClickEditToggle = Some c2 /\
    ParameterDisplay.editMode (editor c2) = false /\
    dispatched c2 = (dispatched c ++ [editedArgs (state c)])%list /\
    (forall es c3,
       forallb (fun e => negb (changes_or_reruns e)) es = true ->
       run c1 es = Some c3 ->
       dispatched c3 = (dispatched c ++ [editedArgs (state c)])%list) /\
    (forall e c0 c0',
       step c0 e = Some c0' ->
       dispatched c0' <> dispatched c0 ->
       hasUnsavedChanges (state c0') = false).
Proof.
  intros Hr He Hed Ho Hp Hm.
  destruct (step_ClickRerun c Hr He Hed Ho)
    as [c1 [E1 [Hc1 [Hd1 [Hp1 [Hm1 [He1 Hr1]]]]]]].
  destruct (step_toggle_off c1) as [c2 [E2 Hm2]]; try assumption.
  { rewrite Hp1; exact Hed. }
  { unfold params in *. rewrite Hp1; exact Hp. }
  { rewrite Hm1; exact Hm. }
  exists c1, c2. repeat split; try assumption.
  - destruct (step_quiet c1 c2 ClickEditToggle eq_refl Hc1 E2) as [_ Hd2].
    congruence.
  - intros es c3 Hq Hrun.
    destruct (run_quiet es c1 c3 Hq Hc1 Hrun) as [_ Hd3]. congruence.
  - intros e c0 c0' Hs Hne.
    destruct (step_dispatch c0 c0' e Hs) as [Hsame | [_ Hclean]];
      [contradiction | exact Hclean].
Qed.

Lemma rerun_then_done_dispatches_once_witness :
  exists c1 c2,
    step editing_dirty ClickRerun = Some c1 /\
    step c1 ClickEditToggle = Some c2 /\
    dispatched editing_dirty = [] /\
    dispatched c2 =
      [[("query", Str "rust lifetimes"); ("numResults", Num 10)]].
Proof.
  destruct (rerun_then_done_dispatches_once editing_dirty)
    as [c1 [c2 [E1 [_ [_ [E2 [_ [Hd _]]]]]]]];
    try solve [reflexivity | vm_compute; discriminate].
  exists c1, c2. repeat split; assumption.
Defined.

(** Every state a mounted card reaches satisfies the invariant. *)
Lemma run_synced (es : list Event) :
  forall c c', synced c -> run c es = Some c' -> synced c'.
Proof.
  induction es as [|e es IH]; simpl; intros c c' Hs H.
  - injection H as <-. exact Hs.
  - destruct (step c e) as [c1|] eqn:E; [|discriminate].
    apply (IH c1 c' (step_synced c c1 e Hs E) H).
Qed.

End ToolCallCardFacts.

(* ------------------------------------------------------------------ *)
(** * The page: further properties *)

Module PageProps.
Import Js Page JsFacts PageFacts.

(** ** When the mapper throws *)

Lemma isToolPart_ok (p : part) (b : bool) :
  isToolPart p = Ok b -> tagged p.
Proof.
  unfold isToolPart, type_startsWith, tagged.
  destruct (field p "type") as [v|o]; [|discriminate].
  destruct v; try discriminate. intros _. eexists; reflexivity.
Qed.

Lemma filterM_ok (parts kept : list part) :
  filterM isToolPart parts = Ok kept -> Forall tagged parts.
Proof.
  revert kept. induction parts as [|p ps IH]; simpl; intros kept H.
  - constructor.
  - destruct (isToolPart p) as [b|e] eqn:Ep; [|discriminate].
    destruct (filterM isToolPart ps) as [l|e] eqn:El; [|discriminate].
    constructor; [exact (isToolPart_ok p b Ep) | exact (IH l eq_refl)].
Qed.

(** X1: The mapper returns exactly when every part of the message, tool part or
    not, carries a string tag; one part without it makes the whole call
    throw. *)
Theorem getToolInvocations_returns_iff (parts : list part) :
  (exists invs, getToolInvocations parts = Ok invs) <-> Forall tagged parts.
Proof.
  split.
  - intros [invs H]. unfold getToolInvocations in H.
    destruct (filterM isToolPart parts) as [l|e] eqn:E; [|discriminate].
    exact (filterM_ok parts l E).
  - intros H. destruct (getToolInvocations_tagged parts H) as [invs [E _]].
    exists invs; exact E.
Qed.

(** ** Mapping a message piece by piece *)

(** What one part contributes. *)
Lemma getToolInvocations_cons (p : part) (ps : list part) :
  getToolInvocations (p :: ps) =
  (keep <- isToolPart p ;;
   rest <- getToolInvocations ps ;;
   if keep then (inv <- toInvocation p ;; Ok (inv :: rest)) else Ok rest).
Proof.
  unfold getToolInvocations. simpl.
  destruct (isToolPart p) as [b|e] eqn:Ep; [|reflexivity]. simpl.
  destruct (isToolPart_ok p b Ep) as [t Ht].
  destruct (toInvocation_tagged p t Ht) as [inv [Ei _]].
  destruct (filterM isToolPart ps) as [l|e] eqn:El; [|reflexivity]. simpl.
  destruct b; simpl; [|destruct (mapM toInvocation l); reflexivity].
  rewrite Ei. simpl. destruct (mapM toInvocation l); reflexivity.
Qed.

Lemma bind_ok_id {A : Type} (m : Js.result A) : bind m (fun x => Ok x) = m.
Proof. destruct m; reflexivity. Qed.

(** X2: The records of a message made of two runs of parts are the records of
    the first run followed by those of the second; the call throws as soon
    as either run does. *)
Theorem getToolInvocations_app (ps qs : list part) :
  getToolInvocations (ps ++ qs) =
  (xs <- getToolInvocations ps ;;
   ys <- getToolInvocations qs ;;
   Ok (xs ++ ys)%list).
Proof.
  induction ps as [|p ps IH].
  - simpl app. change (getToolInvocations []) with (@Ok (list Invocation) []).
    simpl. symmetry. apply bind_ok_id.
  - change ((p :: ps) ++ qs)%list with (p :: (ps ++ qs))%list.
    rewrite !getToolInvocations_cons, IH.
    destruct (isToolPart p) as [b|e] eqn:Ep; [|reflexivity]. simpl.
    destruct (getToolInvocations ps) as [xs|e]; [|reflexivity]. simpl.
    destruct b.
    + destruct (isToolPart_ok p true Ep) as [t Ht].
      destruct (toInvocation_tagged p t Ht) as [inv [Ei _]].
      rewrite Ei. simpl.
      destruct (getToolInvocations qs); reflexivity.
    + destruct (getToolInvocations qs); reflexivity.
Qed.

(** ** The text of a message *)

Lemma join_empty_app (xs ys : list string) :
  join "" (xs ++ ys) = join "" xs ++ join "" ys.
Proof.
  unfold join. induction xs as [|x xs IH].
  - reflexivity.
  - destruct xs as [|x' xs].
    + simpl. destruct ys as [|y ys]; simpl.
      * induction x; simpl; congruence.
      * reflexivity.
    + change (((x :: x' :: xs) ++ ys)%list) with (x :: ((x' :: xs) ++ ys))%list.
      change (concat "" (x :: ((x' :: xs) ++ ys)%list))
        with (x ++ "" ++ concat "" ((x' :: xs) ++ ys)%list).
      change (concat "" (x :: x' :: xs))
        with (x ++ "" ++ concat "" (x' :: xs)).
      rewrite IH. simpl. clear. induction x; simpl; congruence.
Qed.

(** X3: The text of a message is the concatenation, in order, of the texts of
    its runs of parts. *)
Theorem getMessageText_app (ps qs : list part) :
  getMessageText (ps ++ qs) = getMessageText ps ++ getMessageText qs.
Proof.
  unfold getMessageText. rewrite filter_app, map_app. apply join_empty_app.
Qed.

Lemma tool_tag_not_text (p : part) :
  tool_tag p = true -> type_is p "text" = false.
Proof.
  unfold tool_tag, type_is.
  destruct (field p "type") as [v|o]; [|discriminate].
  destruct v; try discriminate. intros H. apply orb_true_iff in H as [H|H].
  - destruct (prefix_inv _ _ H) as [r ->]. reflexivity.
  - apply String.eqb_eq in H; subst. reflexivity.
Qed.

Lemma text_not_tool (p : part) :
  type_is p "text" = true -> isToolPart p = Ok false.
Proof.
  unfold type_is, isToolPart, type_startsWith, type_is.
  destruct (field p "type") as [v|o]; [|discriminate].
  destruct v; try discriminate. simpl. intros H.
  apply String.eqb_eq in H; subst. reflexivity.
Qed.

(** X4: The text and the tool records of a message do not interfere: tool parts
    add nothing to the text, and text parts add no record and never make
    the mapper throw. *)
Theorem text_and_tools_independent (parts : list part) :
  getMessageText parts
    = getMessageText (filter (fun p => negb (tool_tag p)) parts) /\
  getToolInvocations parts
    = getToolInvocations (filter (fun p => negb (type_is p "text")) parts).
Proof.
  split.
  - unfold getMessageText. f_equal. f_equal.
    induction parts as [|p ps IH]; simpl; [reflexivity|].
    destruct (tool_tag p) eqn:Et; simpl.
    + rewrite (tool_tag_not_text p Et). exact IH.
    + destruct (type_is p "text"); [f_equal|]; exact IH.
  - induction parts as [|p ps IH]; [reflexivity|].
    simpl filter. destruct (type_is p "text") eqn:Et; simpl negb; cbv iota.
    + rewrite getToolInvocations_cons, (text_not_tool p Et), <- IH. simpl.
      apply bind_ok_id.
    + rewrite !getToolInvocations_cons, IH. reflexivity.
Qed.

(** ** The chat form *)

Lemma trimStart_blank (s : string) : blank s = true -> trimStart s = "".
Proof.
  induction s as [|c s IH]; simpl; [reflexivity|].
  intros H. apply andb_true_iff in H as [Hc Hs]. rewrite Hc. exact (IH Hs).
Qed.

Lemma trimEnd_keeps_head (c : ascii) (s : string) :
  is_space c = false -> trimEnd (String c s) <> "".
Proof.
  intros Hc. simpl. destruct (trimEnd s); [rewrite Hc|]; discriminate.
Qed.

Lemma trim_empty_iff (s : string) : trim s = "" <-> blank s = true.
Proof.
  unfold trim. split.
  - induction s as [|c s IH]; simpl; [reflexivity|].
    destruct (is_space c) eqn:Hc; simpl.
    + exact IH.
    + intros H. exfalso. revert H. apply (trimEnd_keeps_head c s Hc).
  - intros H. rewrite (trimStart_blank s H). reflexivity.
Qed.

(** X5: Submitting sends nothing and changes nothing when the input is empty or
    all white space, or while a reply is awaited; otherwise it sends the
    input as typed (not trimmed), once, clears the field and hides the
    model notice. *)
Theorem handleSubmit_sends (f : Form) :
  (blank (input f) = true \/ isLoading f = true -> handleSubmit f = f) /\
  (blank (input f) = false -> isLoading f = false ->
   sent (handleSubmit f) = (sent f ++ [input f])%list /\
   input (handleSubmit f) = "" /\
   showModelNotice (handleSubmit f) = false).
Proof.
  unfold handleSubmit. split.
  - intros [Hb | Hl].
    + apply trim_empty_iff in Hb. rewrite Hb. reflexivity.
    + rewrite Hl, orb_true_r. reflexivity.
  - intros Hb Hl. rewrite Hl.
    destruct (trim (input f)) eqn:Et.
    + apply trim_empty_iff in Et. congruence.
    + simpl. repeat split.
Qed.

End PageProps.

(* ------------------------------------------------------------------ *)
(** * The parameter editor: further properties *)

Module ParameterDisplayProps.
Import Js Tools ParameterDisplay JsFacts ParameterDisplayFacts.

(** ** An edit touches one key *)

Lemma onInput_set (args args' : obj) (p : ParameterConfig) (ev : InputEvent) :
  onInput args p ev = Some args' ->
  exists v, args' = set args (key p) v.
Proof.
  unfold onInput, handleChange.
  destruct (type p); destruct ev as [s|[n|]|]; intros H;
    try discriminate; injection H as <-; eexists; reflexivity.
Qed.

Lemma keys_set_nodup (o : obj) (k : string) (v : value) :
  NoDup (keys o) -> NoDup (keys (set o k v)).
Proof.
  induction o as [|[k0 v0] o IH]; simpl; intros H.
  - constructor; [intros [] | constructor].
  - inversion H as [|? ? Hnot Hnd]; subst.
    destruct (k0 =? k) eqn:E; simpl.
    + apply String.eqb_eq in E; subst k0. constructor; assumption.
    + constructor; [|apply IH; exact Hnd].
      intros Hin. apply keys_set in Hin as [Hk | Hin].
      * subst. rewrite String.eqb_refl in E. discriminate.
      * contradiction.
Qed.

(** X6: Whatever the control and the input, an edit changes the edited key
    only: every other key reads as before, no key disappears, the edited
    key is the only one that can appear, and the keys stay distinct. *)
Theorem onInput_frame (args args' : obj) (p : ParameterConfig)
    (ev : InputEvent) :
  onInput args p ev = Some args' ->
  (forall k, k <> key p -> get args' k = get args k) /\
  (forall k, In k (keys args') <-> k = key p \/ In k (keys args)) /\
  (NoDup (keys args) -> NoDup (keys args')).
Proof.
  intros H. destruct (onInput_set args args' p ev H) as [v ->].
  repeat split.
  - intros k Hk. apply get_set_other. congruence.
  - apply keys_set.
  - apply keys_set.
  - apply keys_set_nodup.
Qed.

Lemma onInput_frame_witness :
  let args := [("query", Str "rust"); ("numResults", Num 10)] in
  let p := param "category" "Category" select search false Undefined
             (Some CATEGORY_OPTIONS) "Filter results by content type" in
  exists args',
    onInput args p (Typed "news") = Some args' /\
    get args' "query" = Str "rust" /\
    get args' "numResults" = Num 10.
Proof.
  intros args p. eexists. split; [reflexivity|].
  destruct (onInput_frame args _ p (Typed "news") eq_refl) as [H _].
  split; (rewrite H; [reflexivity | discriminate]).
Defined.

(** ** Text, select and date fields *)

(** X7: A text, select or date field shows back exactly what was entered; the
    empty text leaves the key without a value (unused), any other text is
    stored as it is. *)
Theorem text_input_round_trip (args : obj) (p : ParameterConfig) (s : string) :
  type p = text \/ type p = select \/ type p = date ->
  exists args',
    onInput args p (Typed s) = Some args' /\
    textInputValue args' p = s /\
    (s = "" -> get args' (key p) = Undefined /\
               isParamUsed args' (key p) = false) /\
    (s <> "" -> get args' (key p) = Str s /\
                isParamUsed args' (key p) = true).
Proof.
  intros Ht.
  assert (E : onInput args p (Typed s)
              = Some (set args (key p) (or_else (Str s) Undefined))).
  { unfold onInput, handleChange. destruct Ht as [->|[->| ->]]; reflexivity. }
  eexists. split; [exact E|].
  unfold textInputValue, isParamUsed. rewrite get_set_same.
  destruct s as [|c s].
  - split; [reflexivity|]. split; [intros _; split; reflexivity|].
    intros Hs; contradiction.
  - split; [reflexivity|]. split; [intros Hs; discriminate|].
    intros _; split; reflexivity.
Qed.

Lemma text_input_round_trip_witness :
  let p := param "query" "Search Query" text search true Undefined None
             "The search query" in
  exists args',
    onInput [("query", Str "rust")] p (Typed "") = Some args' /\
    textInputValue args' p = "".
Proof.
  intros p.
  destruct (text_input_round_trip [("query", Str "rust")] p ""
              (or_introl eq_refl)) as [args' [E [Hv _]]].
  exists args'. split; assumption.
Defined.

(** ** The boolean button *)

(** X8: The boolean button stores the negation of the value's truthiness, so
    the key holds a boolean and counts as used from the first click on; a
    second click stores the truthiness the value had at the start. *)
Theorem boolean_click_twice (args : obj) (p : ParameterConfig) :
  type p = boolean ->
  exists args1 args2,
    onInput args p Clicked = Some args1 /\
    get args1 (key p) = Bool (negb (truthy (get args (key p)))) /\
    isParamUsed args1 (key p) = true /\
    onInput args1 p Clicked = Some args2 /\
    get args2 (key p) = Bool (truthy (get args (key p))) /\
    isParamUsed args2 (key p) = true.
Proof.
  intros Ht. unfold onInput, handleChange. rewrite Ht.
  do 2 eexists. split; [reflexivity|].
  unfold isParamUsed. rewrite !get_set_same. simpl.
  rewrite negb_involutive. repeat split.
Qed.

Lemma boolean_click_twice_witness :
  let p := param "highlights" "Highlights" boolean contents false Undefined
             None "Extract relevant highlights" in
  exists args1 args2,
    onInput [] p Clicked = Some args1 /\
    get args1 "highlights" = Bool true /\
    onInput args1 p Clicked = Some args2 /\
    get args2 "highlights" = Bool false.
Proof.
  intros p.
  destruct (boolean_click_twice [] p eq_refl)
    as [a1 [a2 [E1 [G1 [_ [E2 [G2 _]]]]]]].
  exists a1, a2. repeat split; assumption.
Defined.

(** ** The array field shows what it stores *)

Lemma split_clean (x : string) (c : ascii) :
  has_char c x = false -> split x c = [x].
Proof.
  induction x as [|a x IH]; simpl; [reflexivity|].
  intros H. apply orb_false_iff in H as [Ha Hx].
  rewrite Ha, (IH Hx). reflexivity.
Qed.

Lemma split_app_sep (x rest : string) (c : ascii) :
  has_char c x = false ->
  split (x ++ String c rest) c = x :: split rest c.
Proof.
  induction x as [|a x IH]; simpl.
  - intros _. rewrite Ascii.eqb_refl. reflexivity.
  - intros H. apply orb_false_iff in H as [Ha Hx].
    rewrite Ha, (IH Hx). reflexivity.
Qed.

Lemma trimStart_clean (x : string) :
  (forall c, first_char x = Some c -> is_space c = false) -> trimStart x = x.
Proof.
  destruct x as [|a x]; simpl; [reflexivity|].
  intros H. rewrite (H a eq_refl). reflexivity.
Qed.

Lemma trimEnd_clean (x : string) :
  (forall c, last_char x = Some c -> is_space c = false) -> trimEnd x = x.
Proof.
  induction x as [|a x IH]; [reflexivity|].
  intros H. destruct x as [|b x].
  - simpl. rewrite (H a eq_refl). reflexivity.
  - change (trimEnd (String a (String b x)))
      with (match trimEnd (String b x) with
            | "" => if is_space a then "" else String a ""
            | t => String a t
            end).
    rewrite IH; [reflexivity|]. intros c Hc. apply H. exact Hc.
Qed.

Lemma trim_clean (x : string) : clean_item x -> trim x = x.
Proof.
  intros [_ [Hf [Hl _]]]. unfold trim.
  rewrite (trimStart_clean x Hf). apply trimEnd_clean; exact Hl.
Qed.

Lemma parseArray_join (l : list string) :
  Forall clean_item l -> parseArray (join ", " l) = l.
Proof.
  unfold join. induction l as [|x l IH]; intros H; [reflexivity|].
  inversion H as [|? ? Hx Hl]; subst.
  assert (Hne : (0 <? String.length x)%nat = true).
  { destruct Hx as [Hne _]. destruct x; [contradiction | reflexivity]. }
  destruct l as [|y l].
  - unfold parseArray. cbn [concat].
    destruct Hx as [? [? [? Hc]]]. rewrite (split_clean x _ Hc).
    cbn [map filter]. rewrite trim_clean by (repeat split; assumption).
    rewrite Hne. reflexivity.
  - specialize (IH Hl). unfold parseArray in *.
    change (concat ", " (x :: y :: l))
      with (x ++ String ","%char (String " "%char (concat ", " (y :: l)))).
    pose proof Hx as [_ [_ [_ Hc]]]. rewrite (split_app_sep x _ _ Hc).
    cbn [map filter]. rewrite (trim_clean x Hx), Hne. f_equal.
    cbn [split]. change (Ascii.eqb " "%char ","%char) with false. cbv iota.
    pose proof (split_nonempty (concat ", " (y :: l)) ","%char) as Hs.
    destruct (split (concat ", " (y :: l)) ","%char) as [|seg segs];
      [contradiction|].
    exact IH.
Qed.

Lemma set_set (o : obj) (k : string) (v w : value) :
  set (set o k v) k w = set o k w.
Proof.
  induction o as [|[k0 v0] o IH]; simpl.
  - rewrite String.eqb_refl. reflexivity.
  - destruct (k0 =? k) eqn:E; simpl.
    + rewrite String.eqb_refl. reflexivity.
    + rewrite E, IH. reflexivity.
Qed.

(** X9: The array field is stable on what it stores itself.  Every item
    the field stores is clean (not empty, no white space at either end, no
    comma); for a non-empty array of clean items the field shows the items
    joined by ", ", that text parses back to the same array, and entering
    it again leaves every key as it was; so after any input, entering the
    displayed text again changes nothing.  An array that is not of this
    kind is not preserved: an upstream item holding a comma, as in
    ["a,b"], is shown as "a,b" and entering that stores ["a","b"]. *)
Theorem array_field_stable (args : obj) (p : ParameterConfig) :
  type p = array ->
  (forall s, Forall clean_item (parseArray s)) /\
  (forall l,
     l <> [] -> Forall clean_item l ->
     get args (key p) = Arr (map Str l) ->
     arrayInputValue args p = join ", " l /\
     parseArray (arrayInputValue args p) = l /\
     exists args',
       onInput args p (Typed (arrayInputValue args p)) = Some args' /\
       forall k, get args' k = get args k) /\
  (forall s,
     exists args',
       onInput args p (Typed s) = Some args' /\
       onInput args' p (Typed (arrayInputValue args' p)) = Some args') /\
  (get args (key p) = Arr [Str "a,b"] ->
   arrayInputValue args p = "a,b" /\
   exists args',
     onInput args p (Typed (arrayInputValue args p)) = Some args' /\
     get args' (key p) = Arr [Str "a"; Str "b"]).
Proof.
  intros Ht.
  assert (Hclean : forall s, Forall clean_item (parseArray s)).
  { intros s. apply Forall_forall. intros x Hx.
    exact (parseArray_items s x Hx). }
  split; [exact Hclean|]. split; [|split].
  - intros l Hne Hl Hg. unfold arrayInputValue. rewrite Hg.
    rewrite joinValues_strings, (parseArray_join l Hl).
    split; [reflexivity|]. split; [reflexivity|].
    unfold onInput, handleChange. rewrite Ht, (parseArray_join l Hl).
    destruct l as [|x l]; [contradiction|].
    cbn [List.length Nat.ltb Nat.leb].
    eexists. split; [reflexivity|]. intros k.
    destruct (string_dec (key p) k) as [<-|Hk].
    + rewrite get_set_same. symmetry. exact Hg.
    + apply get_set_other. exact Hk.
  - intros s. unfold onInput, handleChange. rewrite Ht.
    eexists. split; [reflexivity|].
    unfold arrayInputValue. rewrite get_set_same, set_set.
    pose proof (parseArray_join _ (Hclean s)) as Hp.
    destruct (parseArray s) as [|x xs] eqn:E.
    + reflexivity.
    + cbn [List.length Nat.ltb Nat.leb]. rewrite joinValues_strings, Hp.
      reflexivity.
  - intros Hg. unfold arrayInputValue, onInput, handleChange.
    rewrite Ht, Hg. split; [reflexivity|].
    eexists. split; [reflexivity|]. apply get_set_same.
Qed.

Lemma array_field_stable_witness :
  let args := [("includeDomains", Arr [Str "x.org"; Str "y.org"])] in
  arrayInputValue args includeDomains_param = "x.org, y.org" /\
  parseArray (arrayInputValue args includeDomains_param)
    = ["x.org"; "y.org"] /\
  exists args',
    onInput [("includeDomains", Arr [Str "a,b"])] includeDomains_param
            (Typed "a,b") = Some args' /\
    get args' "includeDomains" = Arr [Str "a"; Str "b"].
Proof.
  intros args.
  destruct (array_field_stable args includeDomains_param eq_refl)
    as [Hc [Hs _]].
  destruct (Hs ["x.org"; "y.org"] ltac:(discriminate)
               (Hc "x.org, y.org") eq_refl) as [H1 [H2 _]].
  split; [exact H1|]. split; [exact H2|].
  destruct (array_field_stable [("includeDomains", Arr [Str "a,b"])]
              includeDomains_param eq_refl) as [_ [_ [_ Hx]]].
  destruct (Hx eq_refl) as [_ H3]. exact H3.
Defined.

(** ** Sections and rows *)

Lemma paramsBySection_fold (ps : list ParameterConfig)
    (acc : Section_ -> list ParameterConfig) (sec : Section_) :
  fold_left
    (fun acc p =>
       fun s => if section_eqb s (section p) then (acc s ++ [p])%list
                else acc s)
    ps acc sec
  = (acc sec ++ filter (fun p => section_eqb sec (section p)) ps)%list.
Proof.
  revert acc. induction ps as [|p ps IH]; intros acc; simpl.
  - rewrite app_nil_r. reflexivity.
  - rewrite IH. destruct (section_eqb sec (section p)).
    + rewrite <- app_assoc. reflexivity.
    + reflexivity.
Qed.

Lemma paramsBySection_filter (ps : list ParameterConfig) (sec : Section_) :
  paramsBySection ps sec = filter (fun p => section_eqb sec (section p)) ps.
Proof. unfold paramsBySection. apply paramsBySection_fold. Qed.

Lemma sections_permutation (l : list ParameterConfig) :
  Permutation
    (filter (fun p => section_eqb search (section p)) l
     ++ filter (fun p => section_eqb filters (section p)) l
     ++ filter (fun p => section_eqb contents (section p)) l)%list
    l.
Proof.
  induction l as [|p l IH]; simpl; [constructor|].
  destruct (section p); simpl.
  - constructor; exact IH.
  - symmetry. apply Permutation_cons_app. symmetry. exact IH.
  - symmetry. rewrite app_assoc. apply Permutation_cons_app.
    rewrite <- app_assoc. symmetry. exact IH.
Qed.

Lemma filter_comm {A : Type} (f g : A -> bool) (l : list A) :
  filter f (filter g l) = filter g (filter f l).
Proof.
  induction l as [|x l IH]; simpl; [reflexivity|].
  destruct (f x) eqn:Ef, (g x) eqn:Eg; simpl; rewrite ?Ef, ?Eg, IH;
    reflexivity.
Qed.

(** The rows are those of the three sections, one after the other. *)
Lemma rows_by_section (args : obj) (ps : list ParameterConfig) (st : State) :
  rows args ps st =
  (paramsToShow args st (paramsBySection ps search)
   ++ paramsToShow args st (paramsBySection ps filters)
   ++ paramsToShow args st (paramsBySection ps contents))%list.
Proof.
  assert (H : forall sec,
    List.concat (map snd
      (let sectionParams := paramsBySection ps sec in
       if (List.length sectionParams =? 0)%nat then []
       else
         let shown := paramsToShow args st sectionParams in
         if ((List.length shown =? 0)%nat
             && negb (showAllParams st) && negb (editMode st))%bool
         then []
         else [(sec, shown)]))
    = paramsToShow args st (paramsBySection ps sec)).
  { intros sec. cbv zeta.
    destruct (paramsBySection ps sec) as [|q qs] eqn:E.
    - simpl. unfold paramsToShow.
      destruct (showAllParams st || editMode st)%bool; reflexivity.
    - cbn [List.length Nat.eqb].
      destruct (paramsToShow args st (q :: qs)) as [|r rs] eqn:Es.
      + cbn [List.length Nat.eqb andb].
        destruct (negb (showAllParams st) && negb (editMode st))%bool;
          reflexivity.
      + simpl. rewrite app_nil_r. reflexivity. }
  unfold rows, renderSections, sectionOrder. cbn [flat_map].
  rewrite !map_app, !concat_app, !H. simpl. rewrite app_nil_r.
  reflexivity.
Qed.

(** X10: Grouping loses and repeats nothing.  In edit mode, or when everything
    is shown, the rows are all the descriptors, each once; otherwise they
    are the used ones, each once, and together with the count on the
    "show all" toggle they add up to the number of descriptors.  No
    rendered section is empty unless everything is shown or being
    edited. *)
Theorem rows_partition (args : obj) (ps : list ParameterConfig) (st : State) :
  ((showAllParams st || editMode st)%bool = true ->
   Permutation (rows args ps st) ps) /\
  ((showAllParams st || editMode st)%bool = false ->
   Permutation (rows args ps st) (usedParams args ps) /\
   (List.length (rows args ps st) + List.length (unusedParams args ps)
    = List.length ps)%nat /\
   Forall (fun r => snd r <> []) (renderSections args ps st)).
Proof.
  rewrite rows_by_section, !paramsBySection_filter. unfold paramsToShow.
  split; intros Hm; rewrite Hm.
  - apply sections_permutation.
  - assert (Hp : Permutation
        (filter (fun p => isParamUsed args (key p))
           (filter (fun p => section_eqb search (section p)) ps)
         ++ filter (fun p => isParamUsed args (key p))
              (filter (fun p => section_eqb filters (section p)) ps)
         ++ filter (fun p => isParamUsed args (key p))
              (filter (fun p => section_eqb contents (section p)) ps))%list
        (usedParams args ps)).
    { rewrite 3 (filter_comm (fun p => isParamUsed args (key p))).
      apply sections_permutation. }
    split; [exact Hp|]. split.
    + rewrite (Permutation_length Hp). unfold usedParams, unusedParams.
      clear. induction ps as [|p ps IH]; simpl; [reflexivity|].
      destruct (isParamUsed args (key p)); simpl; lia.
    + unfold renderSections, sectionOrder, paramsToShow. rewrite Hm.
      apply orb_false_iff in Hm as [Hs He]. rewrite Hs, He. simpl.
      rewrite !app_nil_r.
      repeat (apply Forall_app; split);
        match goal with
        | |- Forall _ (if ?b then _ else _) => destruct b
        end; try constructor;
        match goal with
        | |- Forall _ (if ?b then _ else _) => destruct b eqn:E
        | _ => idtac
        end; try constructor; simpl; try constructor;
        try (intros Hn; rewrite Hn in E; discriminate).
Qed.

(** ** The fallback listing *)

Lemma in_obj_get (o : obj) (k : string) (v : value) :
  NoDup (keys o) -> In (k, v) o -> get o k = v.
Proof.
  induction o as [|[k0 v0] o IH]; simpl; intros Hnd Hin; [contradiction|].
  inversion Hnd as [|? ? Hnot Hnd']; subst.
  destruct Hin as [E|Hin].
  - injection E as -> ->. rewrite String.eqb_refl. reflexivity.
  - destruct (k0 =? k) eqn:E.
    + apply String.eqb_eq in E; subst. exfalso. apply Hnot.
      apply in_map_iff. exists (k, v). split; auto.
    + apply IH; assumption.
Qed.

Lemma get_in_obj (o : obj) (k : string) :
  In k (keys o) -> In (k, get o k) o.
Proof.
  induction o as [|[k0 v0] o IH]; simpl; intros Hin; [contradiction|].
  destruct (k0 =? k) eqn:E.
  - apply String.eqb_eq in E; subst. left; reflexivity.
  - destruct Hin as [Hk|Hin]; [subst; rewrite String.eqb_refl in E;
                                 discriminate|].
    right. apply IH; exact Hin.
Qed.

(** X11: For a tool without descriptors, the listing shows a key exactly when
    its value is neither undefined nor null: every key the editor would
    call used, and also a key holding the empty string. *)
Theorem displayArgs_lists (args : obj) (k : string) :
  NoDup (keys args) ->
  (In k (keys (displayArgs args)) <->
   In k (keys args) /\
   (isParamUsed args k = true \/ get args k = Str "")).
Proof.
  intros Hnd. unfold keys at 1, displayArgs, isParamUsed.
  rewrite in_map_iff. split.
  - intros [[k' v] [Hk Hin]]. simpl in Hk; subst k'.
    apply filter_In in Hin as [Hin Hf]. simpl in Hf.
    rewrite (in_obj_get args k v Hnd Hin). split.
    + apply in_map_iff. exists (k, v). split; auto.
    + destruct v as [| |b|n| |s|vs]; simpl in *; try discriminate; auto.
      destruct s; simpl; auto.
  - intros [Hin Hv]. exists (k, get args k). split; [reflexivity|].
    apply filter_In. split; [apply get_in_obj; exact Hin|]. simpl.
    destruct Hv as [Hv| ->]; [|reflexivity].
    destruct (get args k); simpl in *; try discriminate; reflexivity.
Qed.

Lemma displayArgs_lists_witness :
  In "note" (keys (displayArgs [("note", Str ""); ("gone", Undefined)])) /\
  isParamUsed [("note", Str ""); ("gone", Undefined)] "note" = false.
Proof.
  assert (Hnd : NoDup (keys [("note", Str ""); ("gone", Undefined)])).
  { repeat constructor; simpl; intuition discriminate. }
  split; [|reflexivity].
  apply (proj2 (displayArgs_lists _ "note" Hnd)).
  split; [left; reflexivity | right; reflexivity].
Defined.

End ParameterDisplayProps.

(* ------------------------------------------------------------------ *)
(** * The tool call card: further properties *)

Module ToolCallCardProps.
Import Js Tools ToolCallCard JsFacts ToolCallCardFacts.

(** ** The header of the card *)

Lemma length_app (s t : string) :
  String.length (s ++ t) = (String.length s + String.length t)%nat.
Proof. induction s as [|c s IH]; simpl; [reflexivity | rewrite IH; reflexivity]. Qed.

Lemma substring_le (n : nat) (s : string) :
  (String.length (substring 0 n s) <= n)%nat.
Proof.
  revert s; induction n as [|n IH]; intros s.
  - destruct s; simpl; lia.
  - destruct s as [|c s]; simpl; [lia|]. specialize (IH s). lia.
Qed.

Lemma substring_all (n : nat) (s : string) :
  (String.length s <= n)%nat -> substring 0 n s = s.
Proof.
  revert s; induction n as [|n IH]; intros s H.
  - destruct s; [reflexivity | simpl in H; lia].
  - destruct s as [|c s]; [reflexivity|]. simpl in *.
    rewrite IH; [reflexivity | lia].
Qed.

Lemma truthy_or_else (x y : value) :
  truthy (or_else x y) = (truthy x || truthy y)%bool.
Proof. unfold or_else. destruct (truthy x) eqn:E; simpl; auto. Qed.

Lemma append_empty (s : string) : s ++ "" = s.
Proof. induction s; simpl; congruence. Qed.

(** X12: The line under the tool name is there exactly when one of query, url
    or the first of urls is truthy; it is never longer than 63 characters:
    a text of up to 60 characters is shown whole, a longer one is cut to
    its first 60 characters followed by three dots. *)
Theorem primaryLabel_bounds (a : obj) :
  (primaryLabel a = None <->
   truthy (get a "query") = false /\ truthy (get a "url") = false /\
   truthy (first (get a "urls")) = false) /\
  (forall l, primaryLabel a = Some l ->
     let s := toString (primaryParam a) in
     (String.length l <= 63)%nat /\
     ((String.length s <= 60)%nat -> l = s) /\
     ((60 < String.length s)%nat ->
      l = slice0 s 60 ++ "..." /\ String.length l = 63%nat)).
Proof.
  assert (Ht : truthy (primaryParam a)
               = (truthy (get a "query") || truthy (get a "url")
                  || truthy (first (get a "urls")))%bool).
  { unfold primaryParam. rewrite !truthy_or_else. simpl.
    rewrite orb_false_r. reflexivity. }
  unfold primaryLabel. split.
  - rewrite Ht.
    destruct (truthy (get a "query")), (truthy (get a "url")),
      (truthy (first (get a "urls"))); simpl;
      split; try discriminate; auto; intros [H1 [H2 H3]]; discriminate.
  - intros l. destruct (truthy (primaryParam a)); [|discriminate].
    intros H; injection H as <-. cbv zeta. unfold slice0.
    set (s := toString (primaryParam a)).
    pose proof (substring_le 60 s) as Hle.
    destruct (60 <? String.length s)%nat eqn:E.
    + apply Nat.ltb_lt in E. rewrite length_app.
      rewrite substring_length by lia. simpl. repeat split; try lia.
    + apply Nat.ltb_ge in E. rewrite length_app. simpl.
      rewrite (substring_all 60 _ E), append_empty. repeat split; try lia.
Qed.

(** The summary has at most five entries. *)
Lemma getParamsSummary_length (a : obj) (summary : list string) :
  getParamsSummary a = Ok summary -> (List.length summary <= 5)%nat.
Proof.
  unfold getParamsSummary, push.
  destruct (domainsSummary (get a "includeDomains")) as [d|e] eqn:Hd;
    [|discriminate].
  cbn [bind]. intros E; injection E as <-.
  apply domainsSummary_shape in Hd.
  destruct (truthy (get a "type") && negb (is_str (get a "type") "auto"))%bool;
  destruct (truthy (get a "category"));
  destruct (truthy (get a "numResults")
            && negb (is_num (get a "numResults") 5))%bool;
  destruct (truthy (get a "startPublishedDate")
            || truthy (get a "endPublishedDate"))%bool;
  destruct Hd as [-> | [x ->]]; simpl; lia.
Qed.

(** X13: The collapsed card shows the first three entries of the summary and
    counts the rest: chips and count add up to the summary, which has at
    most five entries, and the count appears only past three.  The expanded
    card shows none. *)
Theorem summaryChips_bounds (c : Card) (chips : list string)
    (more : option nat) :
  summaryChips c = Ok (chips, more) ->
  exists summary,
    getParamsSummary (args (props c)) = Ok summary /\
    (List.length summary <= 5)%nat /\
    (List.length chips <= 3)%nat /\
    (isExpanded (state c) = false ->
     chips = firstn 3 summary /\
     (List.length chips + overflow more = List.length summary)%nat /\
     (more = None <-> (List.length summary <= 3)%nat) /\
     more <> Some 0%nat) /\
    (isExpanded (state c) = true -> chips = [] /\ more = None).
Proof.
  unfold summaryChips.
  destruct (getParamsSummary (args (props c))) as [summary|e] eqn:Hs;
    [|discriminate].
  cbn [bind]. intros H. exists summary. split; [reflexivity|].
  split; [exact (getParamsSummary_length _ _ Hs)|].
  destruct (isExpanded (state c)); simpl in H.
  - injection H as <- <-. simpl. repeat split; try lia; discriminate.
  - destruct summary as [|x1 [|x2 [|x3 [|x4 rest]]]]; simpl in H;
      injection H as <- <-; simpl;
      repeat split; try lia; try discriminate; try reflexivity;
      try (intros H; simpl in H; lia).
Qed.

Lemma summaryChips_bounds_witness :
  exists summary,
    getParamsSummary (args (props (mount finished_search))) = Ok summary /\
    (List.length summary <= 5)%nat.
Proof.
  destruct (summaryChips_bounds (mount finished_search) ["results: 10"] None
              eq_refl) as [summary [H1 [H2 _]]].
  exists summary. split; assumption.
Defined.

(** ** When the card cannot render *)

(** X14: When includeDomains holds a non-empty string, building the summary
    throws (a string has a length and no join), and as the summary is built
    on every render such a card handles no event.  For includeDomains
    undefined, null, a boolean, a number, the empty string or an array the
    summary is built without a throw. *)
Theorem getParamsSummary_string_domains (a : obj) :
  (forall s,
     get a "includeDomains" = Str s -> s <> "" ->
     (exists e, getParamsSummary a = Throw e) /\
     (forall c e, args (props c) = a -> step c e = None)) /\
  ((get a "includeDomains" = Undefined \/
    get a "includeDomains" = Null \/
    (exists b, get a "includeDomains" = Bool b) \/
    (exists n, get a "includeDomains" = Num n) \/
    get a "includeDomains" = NaN \/
    get a "includeDomains" = Str "" \/
    (exists vs, get a "includeDomains" = Arr vs)) ->
   exists summary, getParamsSummary a = Ok summary).
Proof.
  split.
  - intros s Hs Hne.
    assert (Ht : exists e, getParamsSummary a = Throw e).
    { unfold getParamsSummary, domainsSummary. rewrite Hs.
      destruct s as [|ch s]; [contradiction|]. simpl.
      eexists; reflexivity. }
    split; [exact Ht|]. intros c e Ha. destruct Ht as [err He].
    unfold step, renders. rewrite Ha, He. reflexivity.
  - intros H. apply getParamsSummary_returns. intros s.
    destruct H as [H|[H|[[b H]|[[n H]|[H|[H|[vs H]]]]]]]; rewrite H;
      try (left; discriminate).
    destruct s; [right; reflexivity | left; discriminate].
Qed.

(** ** The result panel *)

(** X15: A result of at most 2000 characters is shown whole, without a notice;
    the panel is hidden whenever the card or the panel is collapsed or the
    result is missing or empty. *)
Theorem resultPanel_short (c : Card) :
  (forall r,
     result (props c) = Some r -> r <> "" ->
     (String.length r <= 2000)%nat ->
     isExpanded (state c) = true -> isResultExpanded (state c) = true ->
     resultPanel c = Some [r]) /\
  (resultPanel c = None <->
   isExpanded (state c) = false \/ isResultExpanded (state c) = false \/
   hasResult (props c) = false).
Proof.
  unfold resultPanel, hasResult, slice0. split.
  - intros r Hr Hne Hlen He Hx. rewrite Hr, He, Hx.
    destruct r as [|ch r]; [contradiction|]. cbn [String.eqb negb andb].
    apply Nat.ltb_ge in Hlen. rewrite Hlen.
    apply Nat.ltb_ge in Hlen. rewrite (substring_all 2000 _ Hlen).
    reflexivity.
  - destruct (result (props c)) as [r|].
    + destruct (isExpanded (state c)), (isResultExpanded (state c)),
        (negb (r =? "")); simpl; split; auto; try discriminate;
        intros [H|[H|H]]; discriminate.
    + split; auto.
Qed.

(** ** The edit session over whole runs of events *)

(** X16: In every state a card reaches from its mount, a session without
    unsaved changes shows the upstream arguments in its edit buffer. *)
Theorem mounted_card_synced (p : Props) (es : list Event) (c : Card) :
  run (mount p) es = Some c ->
  hasUnsavedChanges (state c) = false ->
  editedArgs (state c) = args (props c).
Proof. intros H. exact (run_synced es (mount p) c (mount_synced p) H). Qed.

Lemma mounted_card_synced_witness :
  editedArgs (state editing_clean) = args (props editing_clean).
Proof.
  apply (mounted_card_synced finished_search [ClickHeader; ClickEditToggle]);
    reflexivity.
Defined.

(** X17: The dispatch log only grows, by at most one entry per event. *)
Theorem dispatched_grows (es : list Event) :
  forall c c',
    run c es = Some c' ->
    exists more,
      dispatched c' = (dispatched c ++ more)%list /\
      (List.length more <= List.length es)%nat.
Proof.
  induction es as [|e es IH]; simpl; intros c c' H.
  - injection H as <-. exists []. rewrite app_nil_r.
    split; [reflexivity | simpl; lia].
  - destruct (step c e) as [c1|] eqn:E; [|discriminate].
    destruct (IH c1 c' H) as [more [Hm Hl]].
    destruct (step_dispatch c c1 e E) as [Hs | [Hs _]]; rewrite Hs in Hm.
    + exists more. split; [exact Hm | lia].
    + exists (editedArgs (state c) :: more). rewrite <- app_assoc in Hm.
      split; [exact Hm | simpl; lia].
Qed.

Lemma dispatched_grows_witness :
  exists more,
    dispatched editing_dirty = (dispatched (mount finished_search) ++ more)%list /\
    (List.length more <= 3)%nat.
Proof.
  apply (dispatched_grows
           [ClickHeader; ClickEditToggle;
            Input "query" (ParameterDisplay.Typed "rust lifetimes")]
           (mount finished_search) editing_dirty).
  reflexivity.
Defined.

Lemma handle_no_callback (c c' : Card) (e : Event) :
  onRerun (props c) = false ->
  handle c e = Some c' ->
  dispatched c' = dispatched c /\ onRerun (props c') = false.
Proof.
  intros Ho H. destruct e; simpl in H; case_guards H;
    try (injection H as <-; simpl; auto; fail).
  - injection H as <-. unfold handleDoneEditing, handleRerun.
    destruct (ParameterDisplay.editMode (editor c)); simpl; auto.
    destruct (hasUnsavedChanges (state c)); simpl; auto.
    rewrite Ho. simpl. auto.
  - rewrite Ho, andb_false_r in G. discriminate.
Qed.

(** X18: Without a re-run callback nothing is ever dispatched, whatever the
    user does. *)
Theorem no_callback_no_dispatch (es : list Event) :
  forall c c',
    onRerun (props c) = false ->
    run c es = Some c' ->
    dispatched c' = dispatched c /\ onRerun (props c') = false.
Proof.
  induction es as [|e es IH]; simpl; intros c c' Ho H.
  - injection H as <-. auto.
  - destruct (step c e) as [c1|] eqn:E; [|discriminate].
    apply step_inv in E as [_ [c0 [Hh [_ ->]]]].
    destruct (handle_no_callback c c0 e Ho Hh) as [Hd Ho0].
    destruct (syncEditedArgs_keeps c0) as [_ [Hl [Hp _]]].
    assert (Hd1 : dispatched (if depsChanged e c c0 then syncEditedArgs c0
                              else c0) = dispatched c).
    { destruct (depsChanged e c c0); congruence. }
    assert (Ho1 : onRerun (props (if depsChanged e c c0
                                  then syncEditedArgs c0 else c0)) = false).
    { destruct (depsChanged e c c0); [rewrite Hp|]; exact Ho0. }
    destruct (IH _ c' Ho1 H) as [Hd' Ho']. split; congruence.
Qed.

Lemma no_callback_no_dispatch_witness :
  let p := {| toolName := "exa_search";
              args := [("query", Str "rust")];
              result := None; status := Page.completed;
              onRerun := false |} in
  exists c',
    run (mount p)
        [ClickHeader; ClickEditToggle;
         Input "query" (ParameterDisplay.Typed "go"); ClickEditToggle]
      = Some c' /\
    dispatched c' = [] /\
    hasUnsavedChanges (state c') = true.
Proof.
  intros p.
  set (es := [ClickHeader; ClickEditToggle;
              Input "query" (ParameterDisplay.Typed "go"); ClickEditToggle]).
  destruct (no_callback_no_dispatch es (mount p) (after (mount p) es)
              eq_refl eq_refl) as [Hd _].
  exists (after (mount p) es). split; [reflexivity|].
  split; [exact Hd | reflexivity].
Defined.

Lemma handle_not_editable (c c' : Card) (e : Event) :
  editable (props c) = false ->
  changes_status e = false ->
  handle c e = Some c' ->
  dispatched c' = dispatched c /\
  hasUnsavedChanges (state c') = hasUnsavedChanges (state c) /\
  editable (props c') = false.
Proof.
  intros He Hs H. destruct e; simpl in Hs; try discriminate;
    simpl in H; case_guards H;
    try (injection H as <-; simpl; auto; fail).
  - unfold ParameterDisplay.editToggleShown in G.
    rewrite He, !andb_false_r in G. discriminate.
  - unfold ParameterDisplay.inputsShown in G.
    rewrite He, !andb_false_r in G. discriminate.
  - rewrite He, !andb_false_r in G. discriminate.
Qed.

(** X19: While the status is pending or running, no event edits the arguments
    or dispatches a re-run: until the parent passes a new status, the
    dispatch log and the dirty flag stay as they are. *)
Theorem not_editable_quiet (es : list Event) :
  forall c c',
    editable (props c) = false ->
    forallb (fun e => negb (changes_status e)) es = true ->
    run c es = Some c' ->
    dispatched c' = dispatched c /\
    hasUnsavedChanges (state c') = hasUnsavedChanges (state c) /\
    editable (props c') = false.
Proof.
  induction es as [|e es IH]; simpl; intros c c' He Hq H.
  - injection H as <-. auto.
  - apply andb_true_iff in Hq as [Hs Hq]. apply negb_true_iff in Hs.
    destruct (step c e) as [c1|] eqn:E; [|discriminate].
    apply step_inv in E as [_ [c0 [Hh [_ ->]]]].
    destruct (handle_not_editable c c0 e He Hs Hh) as [Hd [Hu He0]].
    destruct (syncEditedArgs_keeps c0) as [Hu' [Hl [Hp _]]].
    set (c1 := if depsChanged e c c0 then syncEditedArgs c0 else c0) in *.
    assert (H1 : dispatched c1 = dispatched c /\
                 hasUnsavedChanges (state c1) = hasUnsavedChanges (state c) /\
                 editable (props c1) = false).
    { unfold c1. destruct (depsChanged e c c0);
        [rewrite Hu', Hl, Hp|]; auto. }
    destruct H1 as [Hd1 [Hu1 He1]].
    destruct (IH c1 c' He1 Hq H) as [Hd' [Hu'' He']].
    repeat split; congruence.
Qed.

Lemma not_editable_quiet_witness :
  let p := {| toolName := "exa_search";
              args := [("query", Str "rust")];
              result := None; status := Page.running;
              onRerun := true |} in
  exists c',
    run (mount p) [ClickHeader; NewArgs [("query", Str "rust ownership")]]
      = Some c' /\
    dispatched c' = [] /\
    hasUnsavedChanges (state c') = false.
Proof.
  intros p.
  set (es := [ClickHeader; NewArgs [("query", Str "rust ownership")]]).
  destruct (not_editable_quiet es (mount p) (after (mount p) es)
              eq_refl eq_refl eq_refl) as [Hd [Hu _]].
  exists (after (mount p) es). split; [reflexivity|].
  split; [exact Hd | exact Hu].
Defined.

(** X20: Whenever a card reached from its mount dispatches a re-run, it hands
    over the edit buffer, and right after the dispatch the session is clean
    and the buffer shows the upstream arguments again. *)
Theorem dispatch_reverts_buffer (p : Props) (es : list Event) (c c' : Card)
    (e : Event) :
  run (mount p) es = Some c ->
  step c e = Some c' ->
  dispatched c' <> dispatched c ->
  dispatched c' = (dispatched c ++ [editedArgs (state c)])%list /\
  hasUnsavedChanges (state c') = false /\
  editedArgs (state c') = args (props c').
Proof.
  intros Hr Hs Hne.
  pose proof (run_synced es (mount p) c (mount_synced p) Hr) as Hsync.
  pose proof (step_synced c c' e Hsync Hs) as Hsync'.
  destruct (step_dispatch c c' e Hs) as [Hsame | [Hd Hclean]];
    [contradiction|].
  repeat split; [exact Hd | exact Hclean | exact (Hsync' Hclean)].
Qed.

Lemma dispatch_reverts_buffer_witness :
  exists c',
    step editing_dirty ClickRerun = Some c' /\
    dispatched c' = [[("query", Str "rust lifetimes"); ("numResults", Num 10)]] /\
    editedArgs (state c') = [("query", Str "rust ownership"); ("numResults", Num 10)].
Proof.
  destruct (dispatch_reverts_buffer finished_search
              [ClickHeader; ClickEditToggle;
               Input "query" (ParameterDisplay.Typed "rust lifetimes")]
              editing_dirty (after editing_dirty [ClickRerun]) ClickRerun
              eq_refl eq_refl)
    as [Hd [_ Hb]].
  - discriminate.
  - exists (after editing_dirty [ClickRerun]).
    split; [reflexivity|]. split; [exact Hd | exact Hb].
Defined.

(** ** Editing, then leaving edit mode *)

Lemma find_some_nonempty {A : Type} (f : A -> bool) (l : list A) (x : A) :
  find f l = Some x -> l <> [].
Proof. destruct l; [discriminate | discriminate]. Qed.

Lemma step_Input (c : Card) (k : string) (ev : ParameterDisplay.InputEvent)
    (d : ParameterConfig) (newArgs : obj) :
  renders c = true ->
  isExpanded (state c) = true ->
  editable (props c) = true ->
  ParameterDisplay.editMode (editor c) = true ->
  find (fun d => key d =? k) (params c) = Some d ->
  ParameterDisplay.onInput (editedArgs (state c)) d ev = Some newArgs ->
  step c (Input k ev) = Some (handleArgsChange c newArgs).
Proof.
  intros Hr He Hed Hm Hf Hi. unfold step. rewrite Hr.
  unfold handle, ParameterDisplay.inputsShown. rewrite He, Hed, Hm, Hf, Hi.
  pose proof (find_some_nonempty _ _ _ Hf) as Hne.
  destruct (params c) as [|q qs]; [contradiction|].
  cbn [List.length Nat.eqb negb andb].
  assert (Hr' : renders (handleArgsChange c newArgs) = true) by exact Hr.
  rewrite Hr'. unfold depsChanged, syncEditedArgs. simpl.
  destruct (hasUnsavedChanges (state c)); reflexivity.
Qed.

Lemma step_done_dirty (c : Card) :
  renders c = true ->
  isExpanded (state c) = true ->
  editable (props c) = true ->
  onRerun (props c) = true ->
  params c <> [] ->
  ParameterDisplay.editMode (editor c) = true ->
  hasUnsavedChanges (state c) = true ->
  exists c2,
    step c ClickEditToggle = Some c2 /\
    dispatched c2 = (dispatched c ++ [editedArgs (state c)])%list /\
    hasUnsavedChanges (state c2) = false /\
    editedArgs (state c2) = args (props c) /\
    ParameterDisplay.editMode (editor c2) = false.
Proof.
  intros Hr He Hed Ho Hp Hm Hd. unfold step. rewrite Hr.
  unfold handle, ParameterDisplay.editToggleShown, ParameterDisplay.toggleEdit.
  rewrite He, Hed, Hm.
  destruct (params c) as [|q qs]; [contradiction|].
  cbn [andb negb List.length Nat.eqb].
  unfold handleDoneEditing, handleRerun. simpl. rewrite Hd, Ho.
  unfold renders in *. simpl. rewrite Hr.
  unfold depsChanged, syncEditedArgs. simpl. rewrite Hd. simpl.
  eexists. split; [reflexivity|]. simpl. repeat split.
Qed.

(** X21: An edit followed by "Done editing" re-runs the tool with exactly the
    edited arguments, once; the session is clean again and the edit buffer
    goes back to the upstream arguments. *)
Theorem edit_then_done_dispatches (c : Card) (k : string)
    (ev : ParameterDisplay.InputEvent) (d : ParameterConfig)
    (newArgs : obj) :
  renders c = true ->
  isExpanded (state c) = true ->
  editable (props c) = true ->
  onRerun (props c) = true ->
  ParameterDisplay.editMode (editor c) = true ->
  find (fun d => key d =? k) (params c) = Some d ->
  ParameterDisplay.onInput (editedArgs (state c)) d ev = Some newArgs ->
  exists c1 c2,
    step c (Input k ev) = Some c1 /\
    editedArgs (state c1) = newArgs /\
    hasUnsavedChanges (state c1) = true /\
    dispatched c1 = dispatched c /\
    step c1 ClickEditToggle = Some c2 /\
    dispatched c2 = (dispatched c ++ [newArgs])%list /\
    hasUnsavedChanges (state c2) = false /\
    editedArgs (state c2) = args (props c) /\
    ParameterDisplay.editMode (editor c2) = false.
Proof.
  intros Hr He Hed Ho Hm Hf Hi.
  pose proof (step_Input c k ev d newArgs Hr He Hed Hm Hf Hi) as E1.
  destruct (step_done_dirty (handleArgsChange c newArgs))
    as [c2 [E2 [Hd2 [Hc2 [Hb2 Hm2]]]]]; try assumption; try reflexivity.
  { exact (find_some_nonempty _ _ _ Hf). }
  exists (handleArgsChange c newArgs), c2.
  repeat split; assumption.
Qed.

Lemma edit_then_done_dispatches_witness :
  exists c1 c2,
    step editing_clean (Input "numResults" (ParameterDisplay.TypedNumber (Some 20%Z)))
      = Some c1 /\
    step c1 ClickEditToggle = Some c2 /\
    dispatched c2 = [[("query", Str "rust ownership"); ("numResults", Num 20)]] /\
    editedArgs (state c2) = [("query", Str "rust ownership"); ("numResults", Num 10)].
Proof.
  destruct (edit_then_done_dispatches editing_clean "numResults"
              (ParameterDisplay.TypedNumber (Some 20%Z))
              (param "numResults" "Number of Results" number search false
                 (Num 5) None "Number of results to return (1-100)")
              [("query", Str "rust ownership"); ("numResults", Num 20)])
    as [c1 [c2 [E1 [_ [_ [_ [E2 [Hd [_ [Hb _]]]]]]]]]]; try reflexivity.
  exists c1, c2. repeat split; assumption.
Defined.

(** X22: Collapsing and expanding the card while editing does not count as
    "Done editing": nothing is dispatched, the unsaved edits and the dirty
    flag stay, and the editor comes back in view mode. *)
Theorem collapse_keeps_edits (c : Card) :
  renders c = true ->
  isExpanded (state c) = true ->
  exists c1 c2,
    step c ClickHeader = Some c1 /\
    isExpanded (state c1) = false /\
    step c1 ClickHeader = Some c2 /\
    isExpanded (state c2) = true /\
    editor c2 = ParameterDisplay.mount /\
    editedArgs (state c2) = editedArgs (state c) /\
    hasUnsavedChanges (state c2) = hasUnsavedChanges (state c) /\
    dispatched c2 = dispatched c /\
    props c2 = props c.
Proof.
  intros Hr He. unfold step. rewrite Hr. simpl. rewrite He.
  unfold renders in *. simpl. rewrite Hr.
  unfold depsChanged. simpl. rewrite eqb_reflx. simpl.
  do 2 eexists. split; [reflexivity|]. split; [reflexivity|].
  simpl. rewrite Hr. simpl. rewrite eqb_reflx. simpl.
  split; [reflexivity|]. repeat split.
Qed.

Lemma collapse_keeps_edits_witness :
  exists c2,
    run editing_dirty [ClickHeader; ClickHeader] = Some c2 /\
    ParameterDisplay.editMode (editor c2) = false /\
    hasUnsavedChanges (state c2) = true /\
    dispatched c2 = [] /\
    editedArgs (state c2)
      = [("query", Str "rust lifetimes"); ("numResults", Num 10)].
Proof.
  destruct (collapse_keeps_edits editing_dirty eq_refl eq_refl)
    as [c1 [c2 [E1 [_ [E2 [_ [Hm [Hb [Hu [Hd _]]]]]]]]]].
  exists c2. split.
  - cbn [run]. rewrite E1, E2. reflexivity.
  - rewrite Hm, Hb, Hu, Hd. repeat split.
Defined.

(** ** Tools without descriptors *)

Lemma handle_no_descriptors (c c' : Card) (e : Event) :
  params c = [] ->
  hasUnsavedChanges (state c) = false ->
  handle c e = Some c' ->
  hasUnsavedChanges (state c') = false /\
  toolName (props c') = toolName (props c).
Proof.
  intros Hp Hc H. destruct e; simpl in H; case_guards H;
    try (injection H as <-; simpl; auto; fail).
  - unfold ParameterDisplay.editToggleShown in G. rewrite Hp in G.
    simpl in G. rewrite andb_false_r in G. discriminate.
  - unfold ParameterDisplay.inputsShown in G. rewrite Hp in G.
    simpl in G. rewrite andb_false_r in G. discriminate.
  - injection H as <-. unfold handleRerun.
    destruct (onRerun (props c)); simpl; auto.
Qed.

(** X23: The card of a tool without registered descriptors (an unknown tool)
    offers no way to edit: whatever happens, its session never has unsaved
    changes, so its edit buffer always shows the upstream arguments. *)
Theorem no_descriptors_never_dirty (es : list Event) :
  forall c c',
    params c = [] ->
    synced c ->
    hasUnsavedChanges (state c) = false ->
    run c es = Some c' ->
    hasUnsavedChanges (state c') = false /\
    editedArgs (state c') = args (props c').
Proof.
  induction es as [|e es IH]; simpl; intros c c' Hp Hs Hc H.
  - injection H as <-. split; [exact Hc | exact (Hs Hc)].
  - destruct (step c e) as [c1|] eqn:E; [|discriminate].
    pose proof (step_synced c c1 e Hs E) as Hs1.
    apply step_inv in E as [_ [c0 [Hh [_ E1]]]].
    destruct (handle_no_descriptors c c0 e Hp Hc Hh) as [Hc0 Ht0].
    destruct (syncEditedArgs_keeps c0) as [Hu [_ [Hq _]]].
    assert (H1 : hasUnsavedChanges (state c1) = false /\ params c1 = []).
    { subst c1. unfold params in *.
      destruct (depsChanged e c c0); [rewrite Hu, Hq|];
        rewrite Ht0; auto. }
    destruct H1 as [Hc1 Hp1]. exact (IH c1 c' Hp1 Hs1 Hc1 H).
Qed.

Lemma no_descriptors_never_dirty_witness :
  let p := {| toolName := "weather";
              args := [("city", Str "Oslo")];
              result := None; status := Page.completed;
              onRerun := true |} in
  exists c',
    run (mount p) [ClickHeader; ClickRerun; NewArgs [("city", Str "Rome")]]
      = Some c' /\
    hasUnsavedChanges (state c') = false /\
    editedArgs (state c') = [("city", Str "Rome")].
Proof.
  intros p.
  set (es := [ClickHeader; ClickRerun; NewArgs [("city", Str "Rome")]]).
  destruct (no_descriptors_never_dirty es (mount p) (after (mount p) es)
              eq_refl (mount_synced p) eq_refl eq_refl) as [Hc Hb].
  exists (after (mount p) es). split; [reflexivity|].
  split; [exact Hc | exact Hb].
Defined.

End ToolCallCardProps.

(* ------------------------------------------------------------------ *)
(** * The tools' requests and results: properties *)

Module ToolsProps.
Import Js Tools JsFacts ParameterDisplayFacts ParameterDisplayProps.
Import ToolCallCardFacts ToolCallCardProps.

Lemma get_assign_if_other (c : bool) (o : obj) (k k' : string) (v : value) :
  k <> k' -> get (assign_if c o k v) k' = get o k'.
Proof.
  intros H. unfold assign_if. destruct c; [apply get_set_other; exact H|].
  reflexivity.
Qed.

Lemma get_assign_if_same (o : obj) (k : string) (v : value) :
  get (assign_if true o k v) k = v.
Proof. apply get_set_same. Qed.

Lemma keys_assign_if (c : bool) (o : obj) (k k' : string) (v : value) :
  In k' (keys (assign_if c o k v)) <-> (c = true /\ k' = k) \/ In k' (keys o).
Proof.
  unfold assign_if. destruct c.
  - rewrite keys_set. intuition.
  - intuition discriminate.
Qed.

Lemma filled_assign_if (c : bool) (o : obj) (k : string) (v : value) :
  filled o -> (c = true -> truthy v = true) -> filled (assign_if c o k v).
Proof.
  intros [Hnd Hall] Hv. unfold assign_if. destruct c; [|split; assumption].
  split; [apply keys_set_nodup; exact Hnd|].
  intros k' Hin. destruct (string_dec k k') as [<-|Hne].
  - rewrite get_set_same. exact (Hv eq_refl).
  - rewrite (get_set_other o k k' v Hne). apply Hall.
    apply keys_set in Hin as [E|Hin]; [congruence | exact Hin].
Qed.

Lemma has_length_truthy (v : value) : has_length v = true -> truthy v = true.
Proof.
  destruct v as [| |b|n| |s|vs]; simpl; try discriminate; auto.
  destruct s; [discriminate | reflexivity].
Qed.

Lemma truthy_or_default (x y : value) :
  truthy y = true -> truthy (or_else x y) = true.
Proof. intros H. rewrite truthy_or_else, H. apply orb_true_r. Qed.

Ltac fill_options :=
  repeat (apply filled_assign_if;
          [|first [ exact (fun H => H)
                  | apply has_length_truthy ]]).

(** X24: The options sent to the search and find-similar endpoints never
    carry an unset value: every option present is truthy and no key is
    repeated; in both, [text] is always on and [numResults] is the given
    number, or 5 when none or 0 is given; in the search request [type]
    falls back to "auto"; in both, a list filter (include or exclude
    domains, and for search include or exclude text) is sent exactly when
    the given value has a length that is not zero, and then unchanged, and
    the category exactly when it is truthy. *)
Theorem exaSearchOptions_filled (params : obj) :
  filled (exaSearchOptions params) /\
  filled (exaFindSimilarOptions params) /\
  get (exaSearchOptions params) "text" = Bool true /\
  get (exaFindSimilarOptions params) "text" = Bool true /\
  get (exaSearchOptions params) "numResults"
    = (if truthy (get params "numResults") then get params "numResults"
       else Num 5) /\
  get (exaFindSimilarOptions params) "numResults"
    = (if truthy (get params "numResults") then get params "numResults"
       else Num 5) /\
  get (exaSearchOptions params) "type"
    = (if truthy (get params "type") then get params "type"
       else Str "auto") /\
  (forall k,
     In k ["includeDomains"; "excludeDomains"; "includeText"; "excludeText"] ->
     (In k (keys (exaSearchOptions params)) <->
      has_length (get params k) = true) /\
     (has_length (get params k) = true ->
      get (exaSearchOptions params) k = get params k)) /\
  (forall k,
     In k ["includeDomains"; "excludeDomains"] ->
     (In k (keys (exaFindSimilarOptions params)) <->
      has_length (get params k) = true) /\
     (has_length (get params k) = true ->
      get (exaFindSimilarOptions params) k = get params k)) /\
  (In "category" (keys (exaSearchOptions params)) <->
   truthy (get params "category") = true) /\
  (In "category" (keys (exaFindSimilarOptions params)) <->
   truthy (get params "category") = true) /\
  (truthy (get params "category") = true ->
   get (exaSearchOptions params) "category" = get params "category" /\
   get (exaFindSimilarOptions params) "category" = get params "category").
Proof.
  assert (Hbase : filled
            [ ("type", or_else (get params "type") (Str "auto"));
              ("numResults", or_else (get params "numResults") (Num 5));
              ("text", Bool true) ]).
  { split.
    - repeat constructor; simpl; intuition discriminate.
    - intros k [<-|[<-|[<-|[]]]]; simpl;
        try reflexivity; apply truthy_or_default; reflexivity. }
  assert (Hbase' : filled
            [ ("numResults", or_else (get params "numResults") (Num 5));
              ("text", Bool true) ]).
  { split.
    - repeat constructor; simpl; intuition discriminate.
    - intros k [<-|[<-|[]]]; simpl;
        try reflexivity; apply truthy_or_default; reflexivity. }
  unfold exaSearchOptions, exaFindSimilarOptions. cbv zeta.
  split; [fill_options; exact Hbase|].
  split; [fill_options; exact Hbase'|].
  split; [rewrite !get_assign_if_other by discriminate; reflexivity|].
  split; [rewrite !get_assign_if_other by discriminate; reflexivity|].
  split; [rewrite !get_assign_if_other by discriminate; reflexivity|].
  split; [rewrite !get_assign_if_other by discriminate; reflexivity|].
  split; [rewrite !get_assign_if_other by discriminate; reflexivity|].
  split.
  { intros k [<-|[<-|[<-|[<-|[]]]]]; (split; [|intros Hl]).
    all: try (rewrite !keys_assign_if; simpl;
              intuition (try discriminate; try congruence)).
    all: rewrite ?get_assign_if_other by discriminate;
         rewrite Hl, get_assign_if_same; reflexivity. }
  split.
  { intros k [<-|[<-|[]]]; (split; [|intros Hl]).
    all: try (rewrite !keys_assign_if; simpl;
              intuition (try discriminate; try congruence)).
    all: rewrite ?get_assign_if_other by discriminate;
         rewrite Hl, get_assign_if_same; reflexivity. }
  split.
  { rewrite !keys_assign_if; simpl.
    intuition (try discriminate; try congruence). }
  split.
  { rewrite !keys_assign_if; simpl.
    intuition (try discriminate; try congruence). }
  intros Hc. split.
  - rewrite ?get_assign_if_other by discriminate.
    rewrite Hc, get_assign_if_same. reflexivity.
  - rewrite Hc, get_assign_if_same. reflexivity.
Qed.

(** X25: The contents request asks for the page text unless the argument is
    exactly [false], and for highlights and a summary only when asked;
    whatever it carries is the value [true]. *)
Theorem exaContentsOptions_flags (params : obj) :
  (In "text" (keys (exaContentsOptions params)) <->
   get params "text" <> Bool false) /\
  (In "highlights" (keys (exaContentsOptions params)) <->
   truthy (get params "highlights") = true) /\
  (In "summary" (keys (exaContentsOptions params)) <->
   truthy (get params "summary") = true) /\
  (forall k, In k (keys (exaContentsOptions params)) ->
     get (exaContentsOptions params) k = Bool true).
Proof.
  unfold exaContentsOptions, assign_if.
  destruct (get params "text") as [| |[|]|n| |s|vs];
    destruct (truthy (get params "highlights"));
    destruct (truthy (get params "summary")); simpl;
    repeat split;
    try (intros H; intuition (try discriminate; try congruence); fail);
    try (intros k Hk; intuition (subst; reflexivity)).
Qed.

(** X26: A result's text is cut to its leading characters: at most 1500 for a
    search or find-similar result and 3000 for a contents result; a text
    within the limit is passed on unchanged and a missing text stays
    missing.  The other fields are copied. *)
Theorem result_text_bounded (r : obj) (s : string) :
  get r "text" = Str s ->
  (exists r',
     searchResultItem r = Ok r' /\
     get r' "text" = Str (slice0 s 1500) /\
     get r' "title" = get r "title" /\ get r' "url" = get r "url") /\
  (exists r',
     contentsResultItem r = Ok r' /\
     get r' "text" = Str (slice0 s 3000) /\
     get r' "title" = get r "title" /\ get r' "url" = get r "url") /\
  (forall n,
     (String.length (slice0 s n) <= n)%nat /\
     prefix (slice0 s n) s = true /\
     ((String.length s <= n)%nat -> slice0 s n = s)).
Proof.
  intros Ht. unfold searchResultItem, contentsResultItem, textSlice.
  rewrite Ht. simpl. split; [|split].
  - eexists. repeat split.
  - eexists. repeat split.
  - intros n. unfold slice0. split; [apply substring_le|].
    split; [apply substring_prefix | apply substring_all].
Qed.

Lemma result_text_bounded_witness :
  exists r',
    searchResultItem [("title", Str "Rust"); ("text", Str (repeat "x"%char 1600))]
      = Ok r' /\
    get r' "text" = Str (repeat "x"%char 1500).
Proof.
  destruct (result_text_bounded
              [("title", Str "Rust"); ("text", Str (repeat "x"%char 1600))]
              (repeat "x"%char 1600) eq_refl) as [[r' [E [Ht _]]] _].
  exists r'. split; [exact E|]. rewrite Ht. vm_compute. reflexivity.
Defined.

End ToolsProps.

(* ------------------------------------------------------------------ *)
(** * The array field against the wording of the specification *)

Module ArrayFieldFacts.
Import Js Tools ParameterDisplay JsFacts ParameterDisplayFacts.
Import PageProps ParameterDisplayProps.

(** ** What [trim] removes *)






(** ** The text stands for one sequence only *)








(** ** The claim *)




End ArrayFieldFacts.
